(** * pymessenger: the outbound message builder and dispatcher of [Bot]

    A shallow embedding of [pymessenger/bot.py].  Python values are a small
    tree type, dictionaries are finite maps, and the methods of [Bot] run in
    a state-and-exception monad whose state holds the bot object itself (for
    the cached [_auth_args]), the heap of mutable dictionaries handed to
    [send_recipient], the file system, the HTTP transport and the trace of
    the effects performed so far. *)

From Stdlib Require Import ZArith QArith List String Ascii Lia.
From stdpp Require Import gmap strings list fin_maps.

Set Warnings "-register-all".
Local Open Scope Z_scope.

(** ** SHA-256 and HMAC (FIPS 180-4, RFC 2104) on 32-bit words held in [Z] *)

Module Sha256.

Definition mask32 : Z := 4294967295.

Definition w32 (x : Z) : Z := Z.land x mask32.

Definition add32 (x y : Z) : Z := w32 (x + y).

Definition rotr (n x : Z) : Z :=
  w32 (Z.lor (Z.shiftr x n) (Z.shiftl x (32 - n))).

Definition ch (x y z : Z) : Z :=
  Z.lxor (Z.land x y) (Z.land (Z.lxor x mask32) z).

Definition maj (x y z : Z) : Z :=
  Z.lxor (Z.lxor (Z.land x y) (Z.land x z)) (Z.land y z).

Definition bsig0 (x : Z) : Z := Z.lxor (Z.lxor (rotr 2 x) (rotr 13 x)) (rotr 22 x).
Definition bsig1 (x : Z) : Z := Z.lxor (Z.lxor (rotr 6 x) (rotr 11 x)) (rotr 25 x).
Definition ssig0 (x : Z) : Z := Z.lxor (Z.lxor (rotr 7 x) (rotr 18 x)) (Z.shiftr x 3).
Definition ssig1 (x : Z) : Z := Z.lxor (Z.lxor (rotr 17 x) (rotr 19 x)) (Z.shiftr x 10).

(** The constants are the leading 32 fraction bits of the square roots (the
    initial hash value) and of the cube roots (the round constants) of the
    first primes; they are computed here rather than tabulated. *)

Definition primes64 : list Z :=
  [2; 3; 5; 7; 11; 13; 17; 19; 23; 29; 31; 37; 41; 43; 47; 53;
   59; 61; 67; 71; 73; 79; 83; 89; 97; 101; 103; 107; 109; 113; 127; 131;
   137; 139; 149; 151; 157; 163; 167; 173; 179; 181; 191; 193; 197; 199; 211; 223;
   227; 229; 233; 239; 241; 251; 257; 263; 269; 271; 277; 281; 283; 293; 307; 311].

(** Integer cube root by deciding the bits of the root from the top. *)
Fixpoint icbrt_bits (bits : nat) (n r : Z) : Z :=
  match bits with
  | O => r
  | S b =>
      let c := r + Z.shiftl 1 (Z.of_nat b) in
      icbrt_bits b n (if c * c * c <=? n then c else r)
  end.

Definition icbrt (n : Z) : Z := icbrt_bits 40 n 0.

Definition frac_sqrt (p : Z) : Z := w32 (Z.sqrt (p * 2 ^ 64)).
Definition frac_cbrt (p : Z) : Z := w32 (icbrt (p * 2 ^ 96)).

Definition H0 : list Z := Eval vm_compute in map frac_sqrt (take 8 primes64).
Definition K : list Z := Eval vm_compute in map frac_cbrt primes64.

(** Big-endian packing. *)
Definition be_bytes (n : nat) (x : Z) : list Z :=
  map (fun i => Z.land (Z.shiftr x (8 * Z.of_nat i)) 255) (rev (seq 0 n)).

Definition be_word (bs : list Z) : Z :=
  fold_left (fun acc b => Z.lor (Z.shiftl acc 8) b) bs 0.

Fixpoint chunks {A} (fuel n : nat) (l : list A) : list (list A) :=
  match fuel, l with
  | O, _ | _, [] => []
  | S f, _ => take n l :: chunks f n (drop n l)
  end.

Definition words_of (bs : list Z) : list Z :=
  map be_word (chunks (length bs) 4 bs).

(** Padding: a one bit, zeros, and the bit length on 64 bits. *)
Definition pad (msg : list Z) : list Z :=
  let len := Z.of_nat (length msg) in
  let zeros := Z.to_nat ((55 - len) mod 64) in
  msg ++ [128] ++ repeat 0 zeros ++ be_bytes 8 (8 * len).

(** Message schedule; [w] holds the words produced so far, newest first. *)
Fixpoint schedule (n : nat) (w : list Z) : list Z :=
  match n with
  | O => rev w
  | S n' =>
      let wt := add32 (add32 (ssig1 (nth 1 w 0)) (nth 6 w 0))
                      (add32 (ssig0 (nth 14 w 0)) (nth 15 w 0)) in
      schedule n' (wt :: w)
  end.

Record regs := Regs { ra : Z; rb : Z; rc : Z; rd : Z; re : Z; rf : Z; rg : Z; rh : Z }.

Definition round (s : regs) (kw : Z * Z) : regs :=
  let t1 := add32 (add32 (add32 (rh s) (bsig1 (re s)))
                         (add32 (ch (re s) (rf s) (rg s)) (fst kw))) (snd kw) in
  let t2 := add32 (bsig0 (ra s)) (maj (ra s) (rb s) (rc s)) in
  Regs (add32 t1 t2) (ra s) (rb s) (rc s) (add32 (rd s) t1) (re s) (rf s) (rg s).

Definition regs_of (h : list Z) : regs :=
  Regs (nth 0 h 0) (nth 1 h 0) (nth 2 h 0) (nth 3 h 0)
       (nth 4 h 0) (nth 5 h 0) (nth 6 h 0) (nth 7 h 0).

Definition list_of (s : regs) : list Z :=
  [ra s; rb s; rc s; rd s; re s; rf s; rg s; rh s].

Definition compress (h : list Z) (block : list Z) : list Z :=
  let w := schedule 48 (rev (words_of block)) in
  let s := fold_left round (combine K w) (regs_of h) in
  zip_with add32 h (list_of s).

Definition digest (msg : list Z) : list Z :=
  let p := pad msg in
  let h := fold_left compress (chunks (length p) 64 p) H0 in
  flat_map (be_bytes 4) h.

(** HMAC with a 64-byte block. *)
Definition block_key (key : list Z) : list Z :=
  let k := if (64 <? Z.of_nat (length key)) then digest key else key in
  k ++ repeat 0 (64 - length k)%nat.

Definition hmac (key msg : list Z) : list Z :=
  let k := block_key key in
  let ikey := map (Z.lxor 54) k in
  let okey := map (Z.lxor 92) k in
  digest (okey ++ digest (ikey ++ msg)).

Definition hex_digit (d : Z) : ascii :=
  ascii_of_nat (Z.to_nat (if d <? 10 then 48 + d else 87 + d)).

Fixpoint hexlify (bs : list Z) : string :=
  match bs with
  | [] => EmptyString
  | b :: r => String (hex_digit (Z.shiftr b 4)) (String (hex_digit (Z.land b 15)) (hexlify r))
  end.

Definition bytes_of_string (s : string) : list Z :=
  map (fun a => Z.of_nat (nat_of_ascii a)) (list_ascii_of_string s).

Definition hexdigest (key msg : string) : string :=
  hexlify (hmac (bytes_of_string key) (bytes_of_string msg)).

End Sha256.

(** ** Python values

    The JSON-like fragment of Python objects the bot handles.  Dictionaries
    are keyed by strings; equality of [gmap]s is extensional, as [==] on
    Python dictionaries is. *)

Inductive value : Type :=
  | VNone
  | VBool (b : bool)
  | VInt (n : Z)
  | VStr (s : string)
  | VList (l : list value)
  | VTuple (l : list value)
  | VDict (d : gmap string value).

(** Python floats as far as comparison goes: every finite float is a
    rational, and comparisons involving [nan] are false. *)
Inductive pyfloat : Type :=
  | FNan
  | FInf (negative : bool)
  | FFin (q : Q).

Definition float_ge (x y : pyfloat) : bool :=
  match x, y with
  | FNan, _ | _, FNan => false
  | FInf false, _ => true
  | FInf true, FInf true => true
  | FInf true, _ => false
  | FFin _, FInf negative => negative
  | FFin q, FFin r => Qle_bool r q
  end.

Definition float_lt (x y : pyfloat) : bool :=
  match x, y with
  | FNan, _ | _, FNan => false
  | FInf true, FInf true => false
  | FInf true, _ => true
  | FInf false, _ => false
  | FFin _, FInf negative => negb negative
  | FFin q, FFin r => negb (Qle_bool r q)
  end.

Inductive exn : Type :=
  | AttributeError
  | TypeError
  | ValueError
  | OverflowError
  | FileNotFoundError
  | ConnectionError
  | JSONDecodeError.

Inductive result (A : Type) : Type :=
  | Ok (a : A)
  | Raise (e : exn).
Arguments Ok {A} a.
Arguments Raise {A} e.

(** [obj.get(key)]: only dictionaries have the method; a missing key gives
    [None]. *)
Definition py_get (obj : value) (key : string) : result value :=
  match obj with
  | VDict d => Ok (default VNone (d !! key))
  | _ => Raise AttributeError
  end.

(** [sep.join(items)]: every item must be a [str]. *)
Fixpoint str_join (sep : string) (items : list value) : result string :=
  match items with
  | [] => Ok ""%string
  | [VStr s] => Ok s
  | VStr s :: rest =>
      match str_join sep rest with
      | Ok t => Ok (s +:+ sep +:+ t)
      | Raise e => Raise e
      end
  | _ => Raise TypeError
  end.

(** [s.split(sep)] for a one-character separator. *)
Fixpoint str_split (sep : ascii) (s : string) : list string :=
  match s with
  | EmptyString => [EmptyString]
  | String c r =>
      if Ascii.eqb c sep then EmptyString :: str_split sep r
      else match str_split sep r with
           | [] => [String c EmptyString]
           | w :: ws => String c w :: ws
           end
  end.

(** [l[-1]] on the (never empty) result of a split. *)
Definition last_item (l : list string) : string := List.last l EmptyString.

(** [os.path.basename]: what follows the last slash. *)
Definition basename (path : string) : string := last_item (str_split "/" path).

(** ** HTTP requests, responses and the effect trace *)

Inductive method : Type := GET | POST | DELETE.

(** A field of the multipart payload.  [FJson v] stands for the text
    [json.dumps(v)]; the tuple [(name, data, type)] is a file part. *)
Inductive field : Type :=
  | FText (s : string)
  | FJson (v : value)
  | FFile (name : string) (data : list Byte.byte) (content_type : string).

Inductive body : Type :=
  | NoBody
  | JsonBody (v : value)
  | MultipartBody (fields : gmap string field).

(** The only header the bot sets is the content type announced by its
    multipart encoder (whose boundary is the encoder's business). *)
Inductive header : Type :=
  | EncoderContentType (fields : gmap string field).

Record request : Type := Request {
  rq_method : method;
  rq_url : string;
  rq_params : gmap string value;
  rq_body : body;
  rq_headers : gmap string header
}.

(** [json = None]: the body does not decode, [response.json()] raises. *)
Record response : Type := Response {
  status_code : Z;
  json : option value
}.

Inductive event : Type :=
  | EvOpen (path : string)
  | EvRead (path : string)
  | EvClose (path : string)
  | EvHttp (r : request).

(** ** The bot object *)

Definition DEFAULT_API_VERSION_text : string := "16.0".
Definition DEFAULT_API_VERSION : pyfloat := FFin (16 # 1).

Inductive NotificationType : Type := regular | silent_push | no_push.

Definition NotificationType_value (t : NotificationType) : string :=
  match t with
  | regular => "REGULAR"
  | silent_push => "SILENT_PUSH"
  | no_push => "NO_PUSH"
  end.

Module TagType.

Definition confirmed_event_update : string := "CONFIRMED_EVENT_UPDATE".
Definition post_purchase_update : string := "POST_PURCHASE_UPDATE".
Definition account_update : string := "ACCOUNT_UPDATE".
Definition human_agent : string := "HUMAN_AGENT".

End TagType.

Record Bot : Type := MkBot {
  api_version : string;          (* as [format] renders it *)
  _num_api_version : pyfloat;
  app_secret : option string;
  page_id : string;              (* as [format] renders it *)
  graph_url : string;
  access_token : string;
  _auth_args : option (gmap string value)   (* [None]: attribute not set yet *)
}.

Definition loc : Type := positive.

Record state : Type := State {
  self : Bot;
  heap : gmap loc value;
  fs : gmap string (list Byte.byte);
  net : request -> option response;
  trace : list event          (* newest first *)
}.

Definition set_self (b : Bot) (s : state) : state :=
  State b (heap s) (fs s) (net s) (trace s).
Definition set_heap (h : gmap loc value) (s : state) : state :=
  State (self s) h (fs s) (net s) (trace s).
Definition set_net (n : request -> option response) (s : state) : state :=
  State (self s) (heap s) (fs s) n (trace s).
Definition log (e : event) (s : state) : state :=
  State (self s) (heap s) (fs s) (net s) (e :: trace s).

(** ** The monad of bot methods: state plus exceptions *)

Definition M (A : Type) : Type := state -> result A * state.

Definition ret {A} (a : A) : M A := fun s => (Ok a, s).
Definition raise {A} (e : exn) : M A := fun s => (Raise e, s).
Definition bind {A B} (m : M A) (k : A -> M B) : M B :=
  fun s => match m s with
           | (Ok a, s') => k a s'
           | (Raise e, s') => (Raise e, s')
           end.
Definition lift {A} (r : result A) : M A := fun s => (r, s).
Definition get_self : M Bot := fun s => (Ok (self s), s).
Definition put_self (b : Bot) : M unit := fun s => (Ok tt, set_self b s).

Notation "'do' x <- m ; k" := (bind m (fun x => k))
  (at level 10, x name, m at level 100, k at level 200).
Notation "'exec' m ; k" := (bind m (fun _ => k))
  (at level 10, m at level 100, k at level 200).

(** *** Heap primitives *)

(** A reference outside the heap reads as [None]. *)
Definition deref (p : loc) : M value :=
  fun s => (Ok (default VNone (heap s !! p)), s).

(** A dictionary display [{...}] evaluates to a new object. *)
Definition new_dict (d : gmap string value) : M loc :=
  fun s => let p := fresh (dom (heap s)) in
           (Ok p, set_heap (<[p := VDict d]> (heap s)) s).

(** [obj[key] = v]: item assignment with a string key, in place on a
    dictionary, a [TypeError] on every other object. *)
Definition setitem (p : loc) (key : string) (v : value) : M unit :=
  fun s => match heap s !! p with
           | Some (VDict d) => (Ok tt, set_heap (<[p := VDict (<[key := v]> d)]> (heap s)) s)
           | _ => (Raise TypeError, s)
           end.

(** *** File primitives: [with open(path, 'rb') as f: f.read()] *)

Definition open_rb (path : string) : M string :=
  fun s => match fs s !! path with
           | Some _ => (Ok path, log (EvOpen path) s)
           | None => (Raise FileNotFoundError, s)
           end.

Definition f_read (f : string) : M (list Byte.byte) :=
  fun s => (Ok (default [] (fs s !! f)), log (EvRead f) s).

Definition f_close (f : string) : M unit :=
  fun s => (Ok tt, log (EvClose f) s).

(** *** Transport primitives *)

(** [requests.get/post/delete]: the request goes out, then the transport
    answers or fails. *)
Definition http (r : request) : M response :=
  fun s => match net s r with
           | Some resp => (Ok resp, log (EvHttp r) s)
           | None => (Raise ConnectionError, log (EvHttp r) s)
           end.

(** [response.json()] *)
Definition response_json (resp : response) : M value :=
  match json resp with
  | Some v => ret v
  | None => raise JSONDecodeError
  end.

(** ** [pymessenger.utils] *)

(** Modelled from the spec: [utils.generate_appsecret_proof] lives in
    [pymessenger/utils.py], which is not among the sources; the spec gives it
    as the hex-encoded HMAC-SHA256 of the access token keyed by the app
    secret.  A [str] is taken as the bytes of its UTF-8 encoding. *)
Definition generate_appsecret_proof (access_token app_secret : string) : string :=
  Sha256.hexdigest app_secret access_token.

(** ** [class Bot] *)

(** The [api_version] keyword as the caller gave it, with the text [format]
    renders for it and what [float] makes of it: a string ([parsed] is [None]
    where [float] raises [ValueError]), a number [float] converts, an integer
    beyond the range of floats ([float] raises [OverflowError]), or any other
    object ([float] raises [TypeError]) with its truth value. *)
Inductive api_version_arg : Type :=
  | VersionStr (text : string) (parsed : option pyfloat)
  | VersionNum (text : string) (x : pyfloat)
  | VersionHuge (text : string)
  | VersionOther (text : string) (truthy : bool).

(** Truth value, for [kwargs.get('api_version') or DEFAULT_API_VERSION]. *)
Definition version_truthy (v : api_version_arg) : bool :=
  match v with
  | VersionStr text _ => negb (String.eqb text "")
  | VersionNum _ (FFin q) => negb (Qeq_bool q 0)
  | VersionNum _ _ => true
  | VersionHuge _ => true
  | VersionOther _ truthy => truthy
  end.

(** The text [format] renders for the version. *)
Definition version_text (v : api_version_arg) : string :=
  match v with
  | VersionStr text _ | VersionNum text _ | VersionHuge text
  | VersionOther text _ => text
  end.

(** [float(self.api_version)] *)
Definition py_float (v : api_version_arg) : result pyfloat :=
  match v with
  | VersionStr _ (Some x) | VersionNum _ x => Ok x
  | VersionStr _ None => Raise ValueError
  | VersionHuge _ => Raise OverflowError
  | VersionOther _ _ => Raise TypeError
  end.

(** [kw_page_id] is [None] when the keyword is absent; a keyword that is
    given, whatever its value, comes as the text [format] renders for it (an
    explicit [page_id=None] as the text [None]), which is all the bot ever
    does with its [page_id]. *)
Definition Bot_init (access_token : string)
    (kw_api_version : option api_version_arg)
    (kw_app_secret : option string) (kw_page_id : option string) : result Bot :=
  let api_version :=
    match kw_api_version with
    | Some v => if version_truthy v then v
                else VersionNum DEFAULT_API_VERSION_text DEFAULT_API_VERSION
    | None => VersionNum DEFAULT_API_VERSION_text DEFAULT_API_VERSION
    end in
  match py_float api_version with
  | Raise e => Raise e
  | Ok x =>
      Ok (MkBot (version_text api_version) x kw_app_secret
                (default "me"%string kw_page_id)
                ("https://graph.facebook.com/v" +:+ version_text api_version)
                access_token None)
  end.

(** The dictionary the property builds on its first use. *)
Definition fresh_auth_args (b : Bot) : gmap string value :=
  let auth := {[ "access_token"%string := VStr (access_token b) ]} in
  match app_secret b with
  | Some secret =>
      let appsecret_proof := generate_appsecret_proof (access_token b) secret in
      <[ "appsecret_proof"%string := VStr appsecret_proof ]> auth
  | None => auth
  end.

Definition auth_args : M (gmap string value) :=
  do b <- get_self;
  match _auth_args b with
  | None =>
      let auth := fresh_auth_args b in
      exec put_self (MkBot (api_version b) (_num_api_version b) (app_secret b)
                           (page_id b) (graph_url b) (access_token b) (Some auth));
      ret auth
  | Some auth => ret auth
  end.

Definition messages_endpoint (b : Bot) : string :=
  graph_url b +:+ "/" +:+ page_id b +:+ "/messages".

Definition profile_endpoint (b : Bot) : string :=
  graph_url b +:+ "/" +:+ page_id b +:+ "/messenger_profile".

Definition send_raw (payload : loc) : M value :=
  do b <- get_self;
  let request_endpoint := messages_endpoint b in
  do params <- auth_args;
  do body <- deref payload;
  do response <- http (Request POST request_endpoint params (JsonBody body) ∅);
  response_json response.

(** Deprecated alias of [send_raw]. *)
Definition _send_payload (payload : loc) : M value := send_raw payload.

Definition send_recipient (recipient_id : value) (payload : loc)
    (notification_type : NotificationType) : M value :=
  exec setitem payload "recipient" (VDict {[ "id"%string := recipient_id ]});
  exec setitem payload "notification_type"
         (VStr (NotificationType_value notification_type));
  send_raw payload.

Definition send_message_api16plus (recipient_id message : value)
    (notification_type : NotificationType) : M value :=
  do recipient_id <- lift (py_get recipient_id "id");
  do b <- get_self;
  let request_endpoint := messages_endpoint b in
  let params : gmap string value :=
    {[ "recipient"%string := recipient_id;
       "messaging_type"%string := VStr "RESPONSE";
       "message"%string := message ]} in
  do auth <- auth_args;
  let params := auth ∪ params in          (* params.update(self.auth_args) *)
  do response <- http (Request POST request_endpoint params NoBody ∅);
  response_json response.

Definition send_message (recipient_id message : value)
    (notification_type : NotificationType) : M value :=
  do b <- get_self;
  if float_ge (_num_api_version b) (FFin (14 # 1)) then
    send_message_api16plus recipient_id message notification_type
  else
    do payload <- new_dict {[ "message"%string := message ]};
    send_recipient recipient_id payload notification_type.

Definition send_tag_message (recipient_id message tag : value)
    (notification_type : NotificationType) : M value :=
  do payload <- new_dict {[ "message"%string := message;
                            "messaging_type"%string := VStr "MESSAGE_TAG";
                            "tag"%string := tag ]};
  send_recipient recipient_id payload notification_type.

(** The multipart fields of an attachment upload. *)
Definition attachment_payload (recipient_id : value) (attachment_type : string)
    (attachment_path : string) (file_data : list Byte.byte) (file_type : string)
    (notification_type : NotificationType) (is_reusable : bool)
  : gmap string field :=
  {[ "recipient"%string := FJson (VDict {[ "id"%string := recipient_id ]});
     "notification_type"%string := FText (NotificationType_value notification_type);
     "message"%string :=
       FJson (VDict {[ "attachment"%string :=
         VDict {[ "type"%string := VStr attachment_type;
                  "payload"%string :=
                    VDict {[ "is_reusable"%string := VBool is_reusable ]} ]} ]});
     "filedata"%string := FFile (basename attachment_path) file_data file_type ]}.

Definition send_attachment (recipient_id : value) (attachment_type : string)
    (attachment_path : string) (notification_type : NotificationType)
    (is_reusable : bool) : M value :=
  let file_type :=
    attachment_type +:+ "/" +:+ last_item (str_split "." attachment_path) in
  do f <- open_rb attachment_path;
  do file_data <- f_read f;
  exec f_close f;
  let payload := attachment_payload recipient_id attachment_type attachment_path
                   file_data file_type notification_type is_reusable in
  let multipart_header : gmap string header :=
    {[ "Content-Type"%string := EncoderContentType payload ]} in
  do b <- get_self;
  do params <- auth_args;
  do response <- http (Request POST (messages_endpoint b) params
                               (MultipartBody payload) multipart_header);
  response_json response.

Definition send_attachment_url (recipient_id : value)
    (attachment_type attachment_url : string)
    (notification_type : NotificationType) : M value :=
  send_message recipient_id
    (VDict {[ "attachment"%string :=
       VDict {[ "type"%string := VStr attachment_type;
                "payload"%string := VDict {[ "url"%string := VStr attachment_url ]} ]} ]})
    notification_type.

Definition send_text_message (recipient_id message : value)
    (notification_type : NotificationType) : M value :=
  send_message recipient_id (VDict {[ "text"%string := message ]}) notification_type.

Definition send_generic_message (recipient_id elements : value)
    (notification_type : NotificationType) : M value :=
  send_message recipient_id
    (VDict {[ "attachment"%string :=
       VDict {[ "type"%string := VStr "template";
                "payload"%string :=
                  VDict {[ "template_type"%string := VStr "generic";
                           "elements"%string := elements ]} ]} ]})
    notification_type.

Definition send_button_message (recipient_id text buttons : value)
    (notification_type : NotificationType) : M value :=
  send_message recipient_id
    (VDict {[ "attachment"%string :=
       VDict {[ "type"%string := VStr "template";
                "payload"%string :=
                  VDict {[ "template_type"%string := VStr "button";
                           "text"%string := text;
                           "buttons"%string := buttons ]} ]} ]})
    notification_type.

Definition quick_reply (title payload : value) : value :=
  VDict {[ "content_type"%string := VStr "text";
           "title"%string := title;
           "payload"%string := payload ]}.

(** The [quick_replies_list] the two loops fill by [append]. *)
Definition build_quick_replies (quick_replies : list value)
    (list_of_payloads : option (list value)) : list value :=
  let quick_replies_list : list value := [] in
  match list_of_payloads with
  | None | Some [] =>                       (* [not list_of_payloads] *)
      fold_left (fun acc reply => acc ++ [quick_reply reply reply])
                quick_replies quick_replies_list
  | Some payloads =>
      fold_left (fun acc rp =>
                   match snd rp with
                   | VNone => acc ++ [quick_reply (fst rp) (fst rp)]
                   | payload => acc ++ [quick_reply (fst rp) payload]
                   end)
                (zip quick_replies payloads) quick_replies_list
  end.

Definition send_quick_replies_message (recipient_id text : value)
    (quick_replies : list value) (list_of_payloads : option (list value)) : M value :=
  let quick_replies_list := build_quick_replies quick_replies list_of_payloads in
  send_message recipient_id
    (VDict {[ "text"%string := text;
              "quick_replies"%string := VList quick_replies_list ]})
    regular.

Definition send_action (recipient_id action : value)
    (notification_type : NotificationType) : M value :=
  do payload <- new_dict {[ "sender_action"%string := action ]};
  send_recipient recipient_id payload notification_type.

Definition send_image (recipient_id : value) (image_path : string)
    (notification_type : NotificationType) (is_reusable : bool) : M value :=
  send_attachment recipient_id "image" image_path notification_type is_reusable.

Definition send_image_url (recipient_id : value) (image_url : string)
    (notification_type : NotificationType) : M value :=
  send_attachment_url recipient_id "image" image_url notification_type.

Definition send_audio (recipient_id : value) (audio_path : string)
    (notification_type : NotificationType) : M value :=
  send_attachment recipient_id "audio" audio_path notification_type true.

Definition send_audio_url (recipient_id : value) (audio_url : string)
    (notification_type : NotificationType) : M value :=
  send_attachment_url recipient_id "audio" audio_url notification_type.

Definition send_video (recipient_id : value) (video_path : string)
    (notification_type : NotificationType) : M value :=
  send_attachment recipient_id "video" video_path notification_type true.

Definition send_video_url (recipient_id : value) (video_url : string)
    (notification_type : NotificationType) : M value :=
  send_attachment_url recipient_id "video" video_url notification_type.

Definition send_file (recipient_id : value) (file_path : string)
    (notification_type : NotificationType) : M value :=
  send_attachment recipient_id "file" file_path notification_type true.

Definition send_file_url (recipient_id : value) (file_url : string)
    (notification_type : NotificationType) : M value :=
  send_attachment_url recipient_id "file" file_url notification_type.

(** [recipient_id] is taken as the text [format] renders for it. *)
Definition get_user_info (recipient_id : string) (fields : value) : M value :=
  let params : gmap string value := ∅ in
  do params <-
    match fields with
    | VList items | VTuple items =>
        do joined <- lift (str_join "," items);
        ret (<[ "fields"%string := VStr joined ]> params)
    | _ => ret params
    end;
  do auth <- auth_args;
  let params := auth ∪ params in          (* params.update(self.auth_args) *)
  do b <- get_self;
  let request_endpoint := graph_url b +:+ "/" +:+ recipient_id in
  do response <- http (Request GET request_endpoint params NoBody ∅);
  if status_code response =? 200 then response_json response
  else ret VNone.

Definition set_get_started (gs_obj : value) : M value :=
  do b <- get_self;
  let request_endpoint := profile_endpoint b in
  do params <- auth_args;
  do response <- http (Request POST request_endpoint params (JsonBody gs_obj) ∅);
  response_json response.

Definition set_persistent_menu (pm_obj : value) : M value :=
  do b <- get_self;
  let request_endpoint := profile_endpoint b in
  do params <- auth_args;
  do response <- http (Request POST request_endpoint params (JsonBody pm_obj) ∅);
  response_json response.

Definition remove_get_started : M value :=
  let delete_obj := VDict {[ "fields"%string := VList [VStr "get_started"] ]} in
  do b <- get_self;
  let request_endpoint := profile_endpoint b in
  do params <- auth_args;
  do response <- http (Request DELETE request_endpoint params (JsonBody delete_obj) ∅);
  response_json response.

Definition remove_persistent_menu : M value :=
  let delete_obj := VDict {[ "fields"%string := VList [VStr "persistent_menu"] ]} in
  do b <- get_self;
  let request_endpoint := profile_endpoint b in
  do params <- auth_args;
  do response <- http (Request DELETE request_endpoint params (JsonBody delete_obj) ∅);
  response_json response.

(** ** The public operations as data *)

Inductive call : Type :=
  | SendRecipient (recipient_id : value) (payload : loc) (nt : NotificationType)
  | SendMessage (recipient_id message : value) (nt : NotificationType)
  | SendTagMessage (recipient_id message tag : value) (nt : NotificationType)
  | SendAttachment (recipient_id : value) (attachment_type attachment_path : string)
                   (nt : NotificationType) (is_reusable : bool)
  | SendAttachmentUrl (recipient_id : value) (attachment_type attachment_url : string)
                      (nt : NotificationType)
  | SendTextMessage (recipient_id message : value) (nt : NotificationType)
  | SendGenericMessage (recipient_id elements : value) (nt : NotificationType)
  | SendButtonMessage (recipient_id text buttons : value) (nt : NotificationType)
  | SendQuickRepliesMessage (recipient_id text : value) (quick_replies : list value)
                            (list_of_payloads : option (list value))
  | SendAction (recipient_id action : value) (nt : NotificationType)
  | SendImage (recipient_id : value) (path : string) (nt : NotificationType)
              (is_reusable : bool)
  | SendImageUrl (recipient_id : value) (url : string) (nt : NotificationType)
  | SendAudio (recipient_id : value) (path : string) (nt : NotificationType)
  | SendAudioUrl (recipient_id : value) (url : string) (nt : NotificationType)
  | SendVideo (recipient_id : value) (path : string) (nt : NotificationType)
  | SendVideoUrl (recipient_id : value) (url : string) (nt : NotificationType)
  | SendFile (recipient_id : value) (path : string) (nt : NotificationType)
  | SendFileUrl (recipient_id : value) (url : string) (nt : NotificationType)
  | GetUserInfo (recipient_id : string) (fields : value)
  | SendRaw (payload : loc)
  | SetGetStarted (gs_obj : value)
  | SetPersistentMenu (pm_obj : value)
  | RemoveGetStarted
  | RemovePersistentMenu.

Definition perform (c : call) : M value :=
  match c with
  | SendRecipient r p nt => send_recipient r p nt
  | SendMessage r m nt => send_message r m nt
  | SendTagMessage r m t nt => send_tag_message r m t nt
  | SendAttachment r ty path nt reuse => send_attachment r ty path nt reuse
  | SendAttachmentUrl r ty url nt => send_attachment_url r ty url nt
  | SendTextMessage r m nt => send_text_message r m nt
  | SendGenericMessage r e nt => send_generic_message r e nt
  | SendButtonMessage r t b nt => send_button_message r t b nt
  | SendQuickRepliesMessage r t q l => send_quick_replies_message r t q l
  | SendAction r a nt => send_action r a nt
  | SendImage r path nt reuse => send_image r path nt reuse
  | SendImageUrl r url nt => send_image_url r url nt
  | SendAudio r path nt => send_audio r path nt
  | SendAudioUrl r url nt => send_audio_url r url nt
  | SendVideo r path nt => send_video r path nt
  | SendVideoUrl r url nt => send_video_url r url nt
  | SendFile r path nt => send_file r path nt
  | SendFileUrl r url nt => send_file_url r url nt
  | GetUserInfo r f => get_user_info r f
  | SendRaw p => send_raw p
  | SetGetStarted o => set_get_started o
  | SetPersistentMenu o => set_persistent_menu o
  | RemoveGetStarted => remove_get_started
  | RemovePersistentMenu => remove_persistent_menu
  end.

(** The transport with every status code passed through [f]. *)
Definition restatus (f : Z -> Z) (n : request -> option response)
  : request -> option response :=
  fun r => match n r with
           | Some resp => Some (Response (f (status_code resp)) (json resp))
           | None => None
           end.

(** ** Sample sessions *)

Definition reply_ok : value := VDict {[ "message_id"%string := VStr "mid.1" ]}.

Definition always (code : Z) (v : option value) : request -> option response :=
  fun _ => Some (Response code v).

Definition bot_of (r : result Bot) : Bot :=
  match r with
  | Ok b => b
  | Raise _ => MkBot "" FNan None "" "" "" None
  end.

Definition bot13 : Bot :=
  bot_of (Bot_init "TOKEN" (Some (VersionNum "13.0" (FFin (13 # 1)))) None (Some "1055"%string)).
Definition bot16 : Bot :=
  bot_of (Bot_init "TOKEN" None (Some "SECRET"%string) (Some "1055"%string)).

Definition photo : list Byte.byte := [Byte.x89; Byte.x50; Byte.x4e; Byte.x47].

Definition world (b : Bot) : state :=
  State b {[ 1%positive := VDict {[ "message"%string := VDict {[ "text"%string := VStr "hi" ]};
                                    "recipient"%string := VStr "stale" ]} ]}
        {[ "img/cat.png"%string := photo ]} (always 200 (Some reply_ok)) [].

(** ** Auxiliary definitions for the statements *)

(** What [auth_args] answers on a bot: the cached dictionary if there is
    one, the freshly built one otherwise. *)
Definition current_auth (b : Bot) : gmap string value :=
  default (fresh_auth_args b) (_auth_args b).

(** The bot once the property has been read. *)
Definition cached (b : Bot) : Bot :=
  MkBot (api_version b) (_num_api_version b) (app_secret b) (page_id b)
        (graph_url b) (access_token b) (Some (current_auth b)).

(** The cache, when filled, holds what the property computes from the
    bot's own fields. *)
Definition cache_coherent (b : Bot) : Prop :=
  match _auth_args b with
  | None => True
  | Some auth => auth = fresh_auth_args b
  end.

(** One request and the decoding of its answer. *)
Definition answer (rq : request) : M value :=
  do response <- http rq; response_json response.

(** The tail of [get_user_info]: the request, then the status gate. *)
Definition answer_if_200 (rq : request) : M value :=
  do response <- http rq;
  if status_code response =? 200 then response_json response else ret VNone.

(** The dictionary [send_recipient] leaves in place of [d]. *)
Definition wrapped (recipient_id : value) (nt : NotificationType)
    (d : gmap string value) : gmap string value :=
  <[ "notification_type"%string := VStr (NotificationType_value nt) ]>
    (<[ "recipient"%string := VDict {[ "id"%string := recipient_id ]} ]> d).

(** The query parameters of the modern send. *)
Definition modern_params (auth : gmap string value) (recipient message : value)
  : gmap string value :=
  auth ∪ {[ "recipient"%string := recipient;
            "messaging_type"%string := VStr "RESPONSE";
            "message"%string := message ]}.

(** The query parameters of the profile lookup, when [fields] joins. *)
Definition user_info_fields (fields : value) : result (gmap string value) :=
  match fields with
  | VList items | VTuple items =>
      match str_join "," items with
      | Ok joined => Ok {[ "fields"%string := VStr joined ]}
      | Raise e => Raise e
      end
  | _ => Ok ∅
  end.

(** Running [m] a second time, whatever the transport has become, performs
    the very effects of the first run again; and so does a run that starts
    with another transport. *)
Definition repeatable (m : M value) : Prop :=
  forall s n', exists evs,
    trace (snd (m s)) = evs ++ trace s
    /\ trace (snd (m (set_net n' (snd (m s))))) = evs ++ trace (snd (m s))
    /\ trace (snd (m (set_net n' s))) = evs ++ trace s.

(** Operations whose result does not look at the status code. *)
Definition status_blind (m : M value) : Prop :=
  forall f s, fst (m (set_net (restatus f (net s)) s)) = fst (m s).

Definition is_user_info (c : call) : bool :=
  match c with GetUserInfo _ _ => true | _ => false end.

(** The payload that goes with a reply. *)
Definition payload_or_reply (reply payload : value) : value :=
  match payload with
  | VNone => reply
  | _ => payload
  end.

(** The requests among a list of events. *)
Definition requests_of (evs : list event) : list request :=
  omap (fun e => match e with EvHttp r => Some r | _ => None end) evs.

(** What a trace gained since it was [before] (traces grow at the head). *)
Definition new_events (before after : list event) : list event :=
  take (length after - length before) after.

(** The effects an operation performs from a state, newest first. *)
Definition effects_of (c : call) (s : state) : list event :=
  new_events (trace s) (trace (snd (perform c s))).

(** The HTTP verb each operation uses. *)
Definition method_of (c : call) : method :=
  match c with
  | GetUserInfo _ _ => GET
  | RemoveGetStarted | RemovePersistentMenu => DELETE
  | _ => POST
  end.

(** The endpoint each operation addresses. *)
Definition endpoint_of (b : Bot) (c : call) : string :=
  match c with
  | GetUserInfo recipient_id _ => graph_url b +:+ "/" +:+ recipient_id
  | SetGetStarted _ | SetPersistentMenu _ | RemoveGetStarted | RemovePersistentMenu =>
      graph_url b +:+ "/" +:+ page_id b +:+ "/messenger_profile"
  | _ => graph_url b +:+ "/" +:+ page_id b +:+ "/messages"
  end.

(** The recipient of the operations that end in [send_message]. *)
Definition send_message_recipient (c : call) : option value :=
  match c with
  | SendMessage r _ _ | SendAttachmentUrl r _ _ _ | SendTextMessage r _ _
  | SendGenericMessage r _ _ | SendButtonMessage r _ _ _
  | SendQuickRepliesMessage r _ _ _ | SendImageUrl r _ _ | SendAudioUrl r _ _
  | SendVideoUrl r _ _ | SendFileUrl r _ _ => Some r
  | _ => None
  end.

Definition is_dict (v : value) : bool :=
  match v with VDict _ => true | _ => false end.

Definition is_str (v : value) : bool :=
  match v with VStr _ => true | _ => false end.

(** A session: the operations of a list, one after the other, whatever
    each one returns or raises. *)
Fixpoint perform_all (cs : list call) (s : state) : state :=
  match cs with
  | [] => s
  | c :: rest => perform_all rest (snd (perform c s))
  end.

(** Whether a character occurs in a string. *)
Fixpoint occurs (c : ascii) (s : string) : bool :=
  match s with
  | EmptyString => false
  | String a r => Ascii.eqb a c || occurs c r
  end.

(** Sample transports: one that is down, and a platform error body. *)
Definition down : request -> option response := fun _ => None.

Definition reply_error : value :=
  VDict {[ "error"%string := VDict {[ "code"%string := VInt 100 ]} ]}.

(** Two bots that differ at most in their cache. *)
Definition same_config (b b' : Bot) : Prop :=
  api_version b' = api_version b
  /\ _num_api_version b' = _num_api_version b
  /\ app_secret b' = app_secret b
  /\ page_id b' = page_id b
  /\ graph_url b' = graph_url b
  /\ access_token b' = access_token b.

(** ** The hash on its test vectors

    FIPS 180-4 (one and two blocks), RFC 4231 cases 2 and 6. *)

Example sha256_abc :
  Sha256.hexlify (Sha256.digest (Sha256.bytes_of_string "abc"))
  = "ba7816bf8f01cfea414140de5dae2223b00361a396177a9cb410ff61f20015ad"%string.
Proof. vm_compute. reflexivity. Qed.

Example sha256_two_blocks :
  Sha256.hexlify (Sha256.digest (Sha256.bytes_of_string
    "abcdbcdecdefdefgefghfghighijhijkijkljklmklmnlmnomnopnopq"))
  = "248d6a61d20638b8e5c026930c3e6039a33ce45964ff2167f6ecedd419db06c1"%string.
Proof. vm_compute. reflexivity. Qed.

Example hmac_sha256_rfc4231 :
  generate_appsecret_proof "what do ya want for nothing?" "Jefe"
  = "5bdcc146bf60754e6a042426089575c75a003f089d2739839dec58b964ec3843"%string.
Proof. vm_compute. reflexivity. Qed.

Example hmac_sha256_long_key :
  Sha256.hexlify (Sha256.hmac (repeat 170 131)
     (Sha256.bytes_of_string "Test Using Larger Than Block-Size Key - Hash Key First"))
  = "60e431591ee0b67f0d8a26aacbf5b77f8e0bc6213728c5140546040f0ee37f54"%string.
Proof. vm_compute. reflexivity. Qed.

Example sha256_round_constants :
  firstn 2 Sha256.H0 = [1779033703; 3144134277]
  /\ firstn 2 Sha256.K = [1116352408; 1899447441]
  /\ List.last Sha256.K 0 = 3329325298.
Proof. vm_compute. auto. Qed.

(** ** The authentication parameters and their cache *)

Lemma set_self_same s : set_self (self s) s = s.
Proof. by destruct s. Qed.

Lemma cached_filled b auth : _auth_args b = Some auth -> cached b = b.
Proof. intros H. destruct b; simpl in *. subst. reflexivity. Qed.

Lemma current_auth_cached b : current_auth (cached b) = current_auth b.
Proof. reflexivity. Qed.

Lemma cached_idem b : cached (cached b) = cached b.
Proof. reflexivity. Qed.

Lemma current_auth_coherent b : cache_coherent b -> current_auth b = fresh_auth_args b.
Proof.
  unfold cache_coherent, current_auth. destruct (_auth_args b); simpl; auto.
Qed.

Lemma cached_coherent b : cache_coherent b -> cache_coherent (cached b).
Proof. intros H. exact (current_auth_coherent b H). Qed.

Lemma auth_args_eq s :
  auth_args s = (Ok (current_auth (self s)), set_self (cached (self s)) s).
Proof.
  unfold auth_args, bind, get_self, current_auth.
  destruct (_auth_args (self s)) as [auth|] eqn:E; simpl.
  - unfold ret. rewrite (cached_filled _ _ E), set_self_same. reflexivity.
  - unfold put_self, ret, cached, current_auth. rewrite E. reflexivity.
Qed.

Lemma Bot_init_coherent tok v sec pg b :
  Bot_init tok v sec pg = Ok b -> cache_coherent b.
Proof.
  unfold Bot_init. intros H.
  repeat match type of H with
         | context [match ?x with _ => _ end] => destruct x
         end; inversion H; exact I.
Qed.

(** ** What each primitive method does to the state *)

Lemma answer_state rq s : snd (answer rq s) = log (EvHttp rq) s.
Proof.
  unfold answer, bind, http, response_json.
  destruct (net s rq) as [resp|]; [destruct (json resp)|]; reflexivity.
Qed.

Lemma answer_if_200_state rq s : snd (answer_if_200 rq s) = log (EvHttp rq) s.
Proof.
  unfold answer_if_200, bind, http, response_json, ret.
  destruct (net s rq) as [resp|]; [|reflexivity].
  destruct (status_code resp =? 200); [destruct (json resp)|]; reflexivity.
Qed.

Lemma send_raw_eq p s :
  send_raw p s
  = answer (Request POST (messages_endpoint (self s)) (current_auth (self s))
                    (JsonBody (default VNone (heap s !! p))) ∅)
           (set_self (cached (self s)) s).
Proof.
  unfold send_raw, bind at 1. simpl. unfold bind at 1. rewrite auth_args_eq.
  reflexivity.
Qed.

Lemma send_recipient_eq r p nt s :
  send_recipient r p nt s
  = match heap s !! p with
    | Some (VDict d) =>
        send_raw p (set_heap (<[p := VDict (wrapped r nt d)]> (heap s)) s)
    | _ => (Raise TypeError, s)
    end.
Proof.
  unfold send_recipient, bind, setitem, wrapped.
  destruct (heap s !! p) as [[]|] eqn:E; try reflexivity.
  simpl. rewrite lookup_insert_eq, insert_insert_eq. reflexivity.
Qed.

Lemma wrapped_idem r nt d : wrapped r nt (wrapped r nt d) = wrapped r nt d.
Proof.
  unfold wrapped. apply map_eq. intros k.
  destruct (decide (k = "notification_type"%string)) as [->|Hn];
    [by rewrite !lookup_insert_eq|].
  destruct (decide (k = "recipient"%string)) as [->|Hr];
    repeat first [rewrite lookup_insert_eq | rewrite lookup_insert_ne by done];
    reflexivity.
Qed.

(** A request built on a dictionary display: [send_recipient] on a new
    object. *)
Lemma send_fresh_eq r nt d s :
  bind (new_dict d) (fun payload => send_recipient r payload nt) s
  = let p := fresh (dom (heap s)) in
    answer (Request POST (messages_endpoint (self s)) (current_auth (self s))
                    (JsonBody (VDict (wrapped r nt d))) ∅)
           (set_self (cached (self s))
              (set_heap (<[p := VDict (wrapped r nt d)]> (heap s)) s)).
Proof.
  unfold bind at 1, new_dict. rewrite send_recipient_eq. simpl.
  rewrite lookup_insert_eq, send_raw_eq. simpl.
  rewrite lookup_insert_eq, insert_insert_eq. reflexivity.
Qed.

Lemma send_message_api16plus_eq r m nt s :
  send_message_api16plus r m nt s
  = match r with
    | VDict d =>
        answer (Request POST (messages_endpoint (self s))
                        (modern_params (current_auth (self s))
                                       (default VNone (d !! "id"%string)) m)
                        NoBody ∅)
               (set_self (cached (self s)) s)
    | _ => (Raise AttributeError, s)
    end.
Proof.
  unfold send_message_api16plus, bind at 1, lift.
  destruct r; try reflexivity.
  simpl. unfold bind at 1. simpl. unfold bind at 1. rewrite auth_args_eq.
  reflexivity.
Qed.

Lemma send_message_eq r m nt s :
  send_message r m nt s
  = if float_ge (_num_api_version (self s)) (FFin (14 # 1))
    then send_message_api16plus r m nt s
    else bind (new_dict {[ "message"%string := m ]})
              (fun payload => send_recipient r payload nt) s.
Proof.
  unfold send_message, bind at 1. simpl.
  destruct (float_ge _ _); reflexivity.
Qed.

Lemma send_attachment_eq r ty path nt reuse s :
  send_attachment r ty path nt reuse s
  = match fs s !! path with
    | None => (Raise FileNotFoundError, s)
    | Some data =>
        let file_type := ty +:+ "/" +:+ last_item (str_split "." path) in
        let payload := attachment_payload r ty path data file_type nt reuse in
        answer (Request POST (messages_endpoint (self s)) (current_auth (self s))
                        (MultipartBody payload)
                        {[ "Content-Type"%string := EncoderContentType payload ]})
               (set_self (cached (self s))
                  (log (EvClose path) (log (EvRead path) (log (EvOpen path) s))))
    end.
Proof.
  unfold send_attachment, bind at 1, open_rb.
  destruct (fs s !! path) as [data|] eqn:E; [|reflexivity].
  unfold bind at 1, f_read. simpl. rewrite E. simpl.
  unfold bind at 1. simpl. unfold bind at 1. simpl.
  unfold bind at 1. rewrite auth_args_eq. reflexivity.
Qed.

Lemma get_user_info_eq r fields s :
  get_user_info r fields s
  = match user_info_fields fields with
    | Ok params =>
        answer_if_200 (Request GET (graph_url (self s) +:+ "/" +:+ r)
                               (current_auth (self s) ∪ params) NoBody ∅)
                      (set_self (cached (self s)) s)
    | Raise e => (Raise e, s)
    end.
Proof.
  unfold get_user_info, user_info_fields, bind at 1.
  assert (Hplain :
    bind auth_args (fun auth => bind get_self (fun b =>
      bind (http (Request GET (graph_url b +:+ "/" +:+ r) (auth ∪ ∅) NoBody ∅))
           (fun response => if status_code response =? 200
                            then response_json response else ret VNone))) s
    = answer_if_200 (Request GET (graph_url (self s) +:+ "/" +:+ r)
                             (current_auth (self s) ∪ ∅) NoBody ∅)
                    (set_self (cached (self s)) s)).
  { unfold bind at 1. rewrite auth_args_eq. reflexivity. }
  destruct fields; try exact Hplain.
  all: unfold bind at 1, lift; destruct (str_join "," l) as [joined|e]; try reflexivity.
  all: unfold ret; unfold bind at 1; rewrite auth_args_eq; reflexivity.
Qed.

Lemma profile_eq (m : method) (obj : value) s :
  bind get_self (fun b =>
    bind auth_args (fun params =>
      bind (http (Request m (profile_endpoint b) params (JsonBody obj) ∅))
           response_json)) s
  = answer (Request m (profile_endpoint (self s)) (current_auth (self s))
                    (JsonBody obj) ∅)
           (set_self (cached (self s)) s).
Proof.
  unfold bind at 1. simpl. unfold bind at 1. rewrite auth_args_eq. reflexivity.
Qed.

(** ** Properties of every operation *)

Ltac to_primitives :=
  unfold perform, send_image, send_audio, send_video, send_file,
    send_image_url, send_audio_url, send_video_url, send_file_url,
    send_attachment_url, send_text_message, send_generic_message,
    send_button_message, send_quick_replies_message, send_tag_message,
    send_action, _send_payload, set_get_started, set_persistent_menu,
    remove_get_started, remove_persistent_menu;
  rewrite ?send_message_eq, ?send_recipient_eq, ?send_fresh_eq,
    ?send_message_api16plus_eq, ?send_attachment_eq, ?get_user_info_eq,
    ?profile_eq, ?send_raw_eq.

Ltac split_cases :=
  repeat match goal with
         | |- context [match ?x with _ => _ end] => destruct x eqn:?
         end.

(** No operation touches the bot beyond filling its cache. *)
Lemma perform_self c s :
  self (snd (perform c s)) = self s \/ self (snd (perform c s)) = cached (self s).
Proof.
  destruct c; to_primitives; split_cases;
    rewrite ?send_raw_eq, ?answer_state, ?answer_if_200_state; simpl; auto.
Qed.

Lemma perform_coherent c s :
  cache_coherent (self s) -> cache_coherent (self (snd (perform c s))).
Proof.
  intros H. destruct (perform_self c s) as [-> | ->]; [done|].
  by apply cached_coherent.
Qed.

Ltac same_events :=
  simpl; first [ by exists [] | by eexists [_] | by eexists [_; _; _; _] ].

Lemma repeatable_send_raw p : repeatable (send_raw p).
Proof.
  intros s n'. rewrite (send_raw_eq p s), answer_state.
  rewrite !send_raw_eq, !answer_state. same_events.
Qed.

Lemma repeatable_send_recipient r p nt : repeatable (send_recipient r p nt).
Proof.
  intros s n'. rewrite (send_recipient_eq r p nt s).
  destruct (heap s !! p) as [[]|] eqn:E;
    try (rewrite !send_recipient_eq; simpl; rewrite E; same_events).
  rewrite send_raw_eq, answer_state.
  rewrite !send_recipient_eq. simpl. rewrite lookup_insert_eq, E.
  rewrite !send_raw_eq, !answer_state. simpl.
  rewrite !lookup_insert_eq, wrapped_idem. same_events.
Qed.

Lemma repeatable_send_fresh r nt d :
  repeatable (bind (new_dict d) (fun payload => send_recipient r payload nt)).
Proof.
  intros s n'. rewrite (send_fresh_eq r nt d s). simpl. rewrite answer_state.
  rewrite !send_fresh_eq. simpl. rewrite !answer_state. same_events.
Qed.

Lemma repeatable_api16plus r m nt : repeatable (send_message_api16plus r m nt).
Proof.
  intros s n'. rewrite (send_message_api16plus_eq r m nt s).
  destruct r; try (rewrite !send_message_api16plus_eq; same_events).
  rewrite answer_state, !send_message_api16plus_eq, !answer_state. same_events.
Qed.

Lemma repeatable_send_message r m nt : repeatable (send_message r m nt).
Proof.
  intros s n'.
  destruct (float_ge (_num_api_version (self s)) (FFin (14 # 1))) eqn:V.
  - destruct (repeatable_api16plus r m nt s n') as (evs & H1 & H2 & H3).
    destruct (perform_self (SendMessage r m nt) s) as [Hs | Hs]; simpl in Hs.
    all: exists evs; rewrite (send_message_eq r m nt s), V in *.
    all: rewrite !send_message_eq; simpl; rewrite Hs; simpl; rewrite V; auto.
  - destruct (repeatable_send_fresh r nt {[ "message"%string := m ]} s n')
      as (evs & H1 & H2 & H3).
    destruct (perform_self (SendMessage r m nt) s) as [Hs | Hs]; simpl in Hs.
    all: exists evs; rewrite (send_message_eq r m nt s), V in *.
    all: rewrite !send_message_eq; simpl; rewrite Hs; simpl; rewrite V; auto.
Qed.

Lemma repeatable_send_attachment r ty path nt reuse :
  repeatable (send_attachment r ty path nt reuse).
Proof.
  intros s n'. rewrite (send_attachment_eq r ty path nt reuse s).
  destruct (fs s !! path) as [data|] eqn:E.
  - simpl. rewrite answer_state, !send_attachment_eq. simpl. rewrite E.
    simpl. rewrite !answer_state. same_events.
  - rewrite !send_attachment_eq. simpl. rewrite E. same_events.
Qed.

Lemma repeatable_get_user_info r fields : repeatable (get_user_info r fields).
Proof.
  intros s n'. rewrite (get_user_info_eq r fields s).
  destruct (user_info_fields fields) as [params|e] eqn:E.
  - rewrite answer_if_200_state, !get_user_info_eq, E, !answer_if_200_state.
    same_events.
  - rewrite !get_user_info_eq, E. same_events.
Qed.

Lemma repeatable_profile (m : method) (obj : value) :
  repeatable (bind get_self (fun b =>
    bind auth_args (fun params =>
      bind (http (Request m (profile_endpoint b) params (JsonBody obj) ∅))
           response_json))).
Proof.
  intros s n'. rewrite (profile_eq m obj s), answer_state.
  rewrite !profile_eq, !answer_state. same_events.
Qed.

Lemma answer_status_blind rq s t f :
  net t = restatus f (net s) -> fst (answer rq t) = fst (answer rq s).
Proof.
  intros H. unfold answer, bind, http. rewrite H. unfold restatus.
  destruct (net s rq) as [resp|]; [|reflexivity].
  unfold response_json. simpl. destruct (json resp); reflexivity.
Qed.

Lemma self_set_net n s : self (set_net n s) = self s.
Proof. reflexivity. Qed.
Lemma heap_set_net n s : heap (set_net n s) = heap s.
Proof. reflexivity. Qed.
Lemma fs_set_net n s : fs (set_net n s) = fs s.
Proof. reflexivity. Qed.

Lemma perform_status_blind c : is_user_info c = false -> status_blind (perform c).
Proof.
  intros Hc f s. destruct c; try discriminate Hc; to_primitives;
    rewrite ?self_set_net, ?heap_set_net, ?fs_set_net; split_cases;
    rewrite ?send_raw_eq; try reflexivity;
    apply (answer_status_blind _ _ _ f); reflexivity.
Qed.

(** ** The specification's claims *)

(** C2: on every session whose cache, if filled, was filled by the property
    itself, [auth_args] answers a dictionary that holds the access token;
    with an app secret it also holds [appsecret_proof], the hex HMAC-SHA256
    of the access token keyed by the secret; without one the key is absent.
    A second read answers the same dictionary. *)
Theorem auth_args_contents s :
  cache_coherent (self s) ->
  exists auth,
    fst (auth_args s) = Ok auth
    /\ auth !! "access_token"%string = Some (VStr (access_token (self s)))
    /\ match app_secret (self s) with
       | Some secret =>
           auth !! "appsecret_proof"%string
           = Some (VStr (Sha256.hexlify
                           (Sha256.hmac (Sha256.bytes_of_string secret)
                              (Sha256.bytes_of_string (access_token (self s))))))
       | None => auth !! "appsecret_proof"%string = None
       end
    /\ (forall k, k <> "access_token"%string -> k <> "appsecret_proof"%string ->
                  auth !! k = None)
    /\ fst (auth_args (snd (auth_args s))) = Ok auth.
Proof.
  intros H. exists (fresh_auth_args (self s)).
  rewrite !auth_args_eq. simpl.
  rewrite current_auth_cached, (current_auth_coherent _ H).
  unfold fresh_auth_args. destruct (app_secret (self s)) as [secret|].
  - repeat split; try reflexivity.
    intros k H1 H2. rewrite lookup_insert_ne by done. by apply lookup_singleton_ne.
  - repeat split; try reflexivity.
    intros k H1 H2. by apply lookup_singleton_ne.
Qed.

Lemma auth_args_contents_witness :
  exists auth,
    fst (auth_args (world bot16)) = Ok auth
    /\ auth !! "access_token"%string = Some (VStr "TOKEN")
    /\ auth !! "appsecret_proof"%string
       = Some (VStr (Sha256.hexlify
                       (Sha256.hmac (Sha256.bytes_of_string "SECRET")
                                    (Sha256.bytes_of_string "TOKEN"))))
    /\ (forall k, k <> "access_token"%string -> k <> "appsecret_proof"%string ->
                  auth !! k = None)
    /\ fst (auth_args (snd (auth_args (world bot16)))) = Ok auth.
Proof. exact (auth_args_contents (world bot16) I). Defined.

(** C3: [get_user_info] answers the decoded body exactly when the status of
    the transport's answer is 200, and [None] for every other status; every
    other operation answers the same whatever the status codes are. *)
Theorem get_user_info_status_gate :
  (forall s r fields rq resp,
     trace (snd (get_user_info r fields s)) = EvHttp rq :: trace s ->
     net s rq = Some resp ->
     fst (get_user_info r fields s)
     = if status_code resp =? 200
       then match json resp with Some v => Ok v | None => Raise JSONDecodeError end
       else Ok VNone)
  /\ (forall c f s, is_user_info c = false ->
        fst (perform c (set_net (restatus f (net s)) s)) = fst (perform c s)).
Proof.
  split.
  - intros s r fields rq resp Ht Hn. rewrite get_user_info_eq in *.
    destruct (user_info_fields fields) as [params|e].
    + rewrite answer_if_200_state in Ht. simpl in Ht. injection Ht as <-.
      unfold answer_if_200, bind, http. simpl. rewrite Hn.
      destruct (status_code resp =? 200); [|reflexivity].
      unfold response_json. destruct (json resp); reflexivity.
    + simpl in Ht. apply (f_equal length) in Ht. simpl in Ht. lia.
  - intros c f s Hc. by apply perform_status_blind.
Qed.

Lemma get_user_info_status_gate_witness :
  fst (get_user_info "2468" VNone (world bot13)) = Ok reply_ok
  /\ fst (get_user_info "2468" VNone (set_net (always 404 (Some reply_ok)) (world bot13)))
     = Ok VNone
  /\ fst (perform (SendRaw 1%positive)
            (set_net (restatus (fun _ => 500) (net (world bot13))) (world bot13)))
     = fst (perform (SendRaw 1%positive) (world bot13)).
Proof.
  split; [|split].
  - exact (proj1 get_user_info_status_gate (world bot13) "2468"%string VNone _
             (Response 200 (Some reply_ok)) eq_refl eq_refl).
  - exact (proj1 get_user_info_status_gate
             (set_net (always 404 (Some reply_ok)) (world bot13)) "2468"%string VNone _
             (Response 404 (Some reply_ok)) eq_refl eq_refl).
  - exact (proj2 get_user_info_status_gate (SendRaw 1%positive) (fun _ => 500)
             (world bot13) eq_refl).
Defined.

(** C9: for every operation and inputs, a second run performs the very
    effects of the first, request for request, whatever the transport
    answered in between or would have answered at first: the outbound
    payload is a function of the inputs alone. *)
Theorem payload_construction_deterministic c s n' :
  exists evs,
    trace (snd (perform c s)) = evs ++ trace s
    /\ trace (snd (perform c (set_net n' (snd (perform c s)))))
       = evs ++ trace (snd (perform c s))
    /\ trace (snd (perform c (set_net n' s))) = evs ++ trace s.
Proof.
  revert s n'. change (repeatable (perform c)).
  destruct c; simpl;
    unfold send_image, send_audio, send_video, send_file,
      send_image_url, send_audio_url, send_video_url, send_file_url,
      send_attachment_url, send_text_message, send_generic_message,
      send_button_message, send_quick_replies_message, send_tag_message,
      send_action;
    auto using repeatable_send_raw, repeatable_send_recipient,
      repeatable_send_fresh, repeatable_send_message,
      repeatable_send_attachment, repeatable_get_user_info.
  all: apply repeatable_profile.
Qed.

(** C7: on a path the file system does not hold, [send_attachment] raises
    the file error and leaves the state, trace included, as it was: nothing
    was sent.  On a path it holds, the file is opened, read and closed, in
    this order, before the one request goes out with the bytes read. *)
Theorem send_attachment_reads_before_sending s r ty path nt reuse :
  (fs s !! path = None ->
     send_attachment r ty path nt reuse s = (Raise FileNotFoundError, s))
  /\ (forall data, fs s !! path = Some data ->
        exists rq,
          trace (snd (send_attachment r ty path nt reuse s))
          = EvHttp rq :: EvClose path :: EvRead path :: EvOpen path :: trace s
          /\ rq_body rq
             = MultipartBody
                 (attachment_payload r ty path data
                    (ty +:+ "/" +:+ last_item (str_split "." path)) nt reuse)).
Proof.
  rewrite send_attachment_eq. split.
  - intros ->. reflexivity.
  - intros data ->. simpl. rewrite answer_state. simpl. eauto.
Qed.

Lemma send_attachment_reads_before_sending_witness :
  send_attachment (VStr "2468") "image" "img/dog.png" regular true (world bot13)
  = (Raise FileNotFoundError, world bot13)
  /\ exists rq,
       trace (snd (send_attachment (VStr "2468") "image" "img/cat.png" regular true
                     (world bot13)))
       = [EvHttp rq; EvClose "img/cat.png"; EvRead "img/cat.png"; EvOpen "img/cat.png"]
       /\ rq_body rq
          = MultipartBody
              (attachment_payload (VStr "2468") "image" "img/cat.png" photo
                 "image/png" regular true).
Proof.
  split.
  - exact (proj1 (send_attachment_reads_before_sending (world bot13) (VStr "2468")
                    "image" "img/dog.png" regular true) eq_refl).
  - exact (proj2 (send_attachment_reads_before_sending (world bot13) (VStr "2468")
                    "image" "img/cat.png" regular true) photo eq_refl).
Defined.

(** C8: whatever the session's API version, [send_tag_message] sends one
    JSON-body POST to the messages endpoint whose body is
    [{message, messaging_type: "MESSAGE_TAG", tag}] wrapped with the
    recipient and the notification type, the authentication parameters being
    the only query parameters. *)
Theorem send_tag_message_always_legacy s r m tag nt :
  trace (snd (send_tag_message r m tag nt s))
  = EvHttp (Request POST (graph_url (self s) +:+ "/" +:+ page_id (self s) +:+ "/messages")
              (current_auth (self s))
              (JsonBody (VDict
                 (<[ "notification_type"%string := VStr (NotificationType_value nt) ]>
                    (<[ "recipient"%string := VDict {[ "id"%string := r ]} ]>
                       {[ "message"%string := m;
                          "messaging_type"%string := VStr "MESSAGE_TAG";
                          "tag"%string := tag ]}))))
              ∅)
    :: trace s.
Proof.
  unfold send_tag_message. rewrite send_fresh_eq. simpl.
  rewrite answer_state. reflexivity.
Qed.

(** C5: on a dictionary [d] held at [payload], [send_recipient] leaves a
    dictionary with [recipient = {id: recipient_id}] and
    [notification_type] the token of the notification type, every other key
    as in [d], and posts that dictionary as the JSON body. *)
Theorem send_recipient_frame s r p nt d :
  heap s !! p = Some (VDict d) ->
  exists d',
    heap (snd (send_recipient r p nt s)) !! p = Some (VDict d')
    /\ d' !! "recipient"%string = Some (VDict {[ "id"%string := r ]})
    /\ d' !! "notification_type"%string
       = Some (VStr match nt with
                    | regular => "REGULAR"
                    | silent_push => "SILENT_PUSH"
                    | no_push => "NO_PUSH"
                    end)
    /\ (forall k, k <> "recipient"%string -> k <> "notification_type"%string ->
                  d' !! k = d !! k)
    /\ trace (snd (send_recipient r p nt s))
       = EvHttp (Request POST (messages_endpoint (self s)) (current_auth (self s))
                         (JsonBody (VDict d')) ∅)
         :: trace s.
Proof.
  intros E. exists (wrapped r nt d).
  rewrite send_recipient_eq, E, send_raw_eq, answer_state. simpl.
  rewrite lookup_insert_eq. unfold wrapped. repeat split.
  - by rewrite lookup_insert_ne, lookup_insert_eq.
  - rewrite lookup_insert_eq. by destruct nt.
  - intros k H1 H2. by rewrite !lookup_insert_ne.
Qed.

Lemma send_recipient_frame_witness :
  exists d',
    heap (snd (send_recipient (VStr "2468") 1%positive silent_push (world bot13)))
      !! 1%positive = Some (VDict d')
    /\ d' !! "recipient"%string = Some (VDict {[ "id"%string := VStr "2468" ]})
    /\ d' !! "notification_type"%string = Some (VStr "SILENT_PUSH")
    /\ (forall k, k <> "recipient"%string -> k <> "notification_type"%string ->
                  d' !! k = ({[ "message"%string := VDict {[ "text"%string := VStr "hi" ]};
                                "recipient"%string := VStr "stale" ]}
                               : gmap string value) !! k)
    /\ trace (snd (send_recipient (VStr "2468") 1%positive silent_push (world bot13)))
       = [EvHttp (Request POST "https://graph.facebook.com/v13.0/1055/messages"
                    {[ "access_token"%string := VStr "TOKEN" ]}
                    (JsonBody (VDict d')) ∅)].
Proof.
  exact (send_recipient_frame (world bot13) (VStr "2468") 1%positive silent_push _
           eq_refl).
Defined.

(** C10: [send_recipient] writes into the caller's own dictionary: after the
    call the object at [payload] is [d] with the two keys set, whatever [d]
    held under them; no object is created and no other object changes; and
    unless [d] already held exactly these two values, the caller's object
    differs from what it was. *)
Theorem send_recipient_mutates_in_place s r p nt d :
  heap s !! p = Some (VDict d) ->
  let s' := snd (send_recipient r p nt s) in
  heap s'
  = <[ p := VDict (<[ "notification_type"%string := VStr (NotificationType_value nt) ]>
                     (<[ "recipient"%string := VDict {[ "id"%string := r ]} ]> d)) ]>
      (heap s)
  /\ dom (heap s') = dom (heap s)
  /\ (forall q, q <> p -> heap s' !! q = heap s !! q)
  /\ (d !! "recipient"%string <> Some (VDict {[ "id"%string := r ]})
      \/ d !! "notification_type"%string <> Some (VStr (NotificationType_value nt)) ->
      heap s' !! p <> heap s !! p).
Proof.
  intros E s'. subst s'.
  rewrite send_recipient_eq, E, send_raw_eq, answer_state. simpl.
  repeat split.
  - rewrite dom_insert_L. apply subseteq_union_1_L, singleton_subseteq_l.
    by apply (elem_of_dom_2 (heap s) p (VDict d)).
  - intros q Hq. by rewrite lookup_insert_ne.
  - rewrite lookup_insert_eq. intros Hd Heq.
    injection Heq as Heq. fold (wrapped r nt d) in Heq.
    destruct Hd as [Hd | Hd]; apply Hd; rewrite <- Heq; unfold wrapped.
    + by rewrite lookup_insert_ne, lookup_insert_eq.
    + by rewrite lookup_insert_eq.
Qed.

Lemma send_recipient_mutates_in_place_witness :
  let s' := snd (send_recipient (VStr "2468") 1%positive regular (world bot13)) in
  heap s'
  = <[ 1%positive :=
         VDict (<[ "notification_type"%string := VStr "REGULAR" ]>
                  (<[ "recipient"%string := VDict {[ "id"%string := VStr "2468" ]} ]>
                     {[ "message"%string := VDict {[ "text"%string := VStr "hi" ]};
                        "recipient"%string := VStr "stale" ]})) ]>
      (heap (world bot13))
  /\ dom (heap s') = dom (heap (world bot13))
  /\ (forall q, q <> 1%positive -> heap s' !! q = heap (world bot13) !! q)
  /\ heap s' !! 1%positive <> heap (world bot13) !! 1%positive.
Proof.
  destruct (send_recipient_mutates_in_place (world bot13) (VStr "2468") 1%positive
              regular _ eq_refl) as (H1 & H2 & H3 & H4).
  split; [exact H1 | split; [exact H2 | split; [exact H3 |]]].
  apply H4. left. vm_compute. discriminate.
Defined.

Lemma float_lt_not_ge x y : float_lt x y = true -> float_ge x y = false.
Proof.
  destruct x as [|[]|q], y as [|[]|q']; simpl; try discriminate; try reflexivity.
  destruct (Qle_bool q' q); [discriminate | reflexivity].
Qed.

Lemma fresh_auth_other b k :
  k <> "access_token"%string -> k <> "appsecret_proof"%string ->
  fresh_auth_args b !! k = None.
Proof.
  intros H1 H2. unfold fresh_auth_args. destruct (app_secret b).
  - rewrite lookup_insert_ne by done. by apply lookup_singleton_ne.
  - by apply lookup_singleton_ne.
Qed.

Lemma fresh_auth_token b :
  fresh_auth_args b !! "access_token"%string = Some (VStr (access_token b)).
Proof. unfold fresh_auth_args. by destruct (app_secret b). Qed.

(** What the modern path sends for a recipient given as a dictionary. *)
Lemma modern_request s d m nt :
  cache_coherent (self s) ->
  exists params,
    trace (snd (send_message_api16plus (VDict d) m nt s))
    = EvHttp (Request POST (messages_endpoint (self s)) params NoBody ∅) :: trace s
    /\ params = fresh_auth_args (self s)
                ∪ {[ "recipient"%string := default VNone (d !! "id"%string);
                     "messaging_type"%string := VStr "RESPONSE";
                     "message"%string := m ]}
    /\ params !! "recipient"%string = Some (default VNone (d !! "id"%string))
    /\ params !! "messaging_type"%string = Some (VStr "RESPONSE")
    /\ params !! "message"%string = Some m
    /\ params !! "access_token"%string = Some (VStr (access_token (self s))).
Proof.
  intros H. eexists. rewrite send_message_api16plus_eq, answer_state. simpl.
  rewrite (current_auth_coherent _ H). unfold modern_params.
  split; [reflexivity|]. split; [reflexivity|].
  repeat split.
  - by rewrite lookup_union_r by (by apply fresh_auth_other).
  - by rewrite lookup_union_r by (by apply fresh_auth_other).
  - by rewrite lookup_union_r by (by apply fresh_auth_other).
  - apply lookup_union_Some_l, fresh_auth_token.
Qed.

(** C1, as the code has it: [send_message] branches on the numeric API
    version.  From 14.0 on it is [send_message_api16plus]: for a recipient
    given as a dictionary, one POST without body to
    [{graph_url}/{page_id}/messages] whose query parameters hold [recipient],
    [messaging_type = "RESPONSE"] and [message] next to the authentication
    parameters; for any other recipient, a plain id among them, an
    [AttributeError] with nothing sent.  Below 14.0 it is [send_recipient]
    on the new dictionary [{message}]: one POST to the same endpoint whose
    JSON body is that dictionary wrapped with the recipient and the
    notification type. *)
Theorem send_message_branches_on_version s r m nt :
  cache_coherent (self s) ->
  let b := self s in
  let url := graph_url b +:+ "/" +:+ page_id b +:+ "/messages" in
  (float_ge (_num_api_version b) (FFin (14 # 1)) = true ->
     send_message r m nt s = send_message_api16plus r m nt s
     /\ match r with
        | VDict d =>
            exists params,
              trace (snd (send_message r m nt s))
              = EvHttp (Request POST url params NoBody ∅) :: trace s
              /\ params = fresh_auth_args b
                          ∪ {[ "recipient"%string := default VNone (d !! "id"%string);
                               "messaging_type"%string := VStr "RESPONSE";
                               "message"%string := m ]}
              /\ params !! "recipient"%string = Some (default VNone (d !! "id"%string))
              /\ params !! "messaging_type"%string = Some (VStr "RESPONSE")
              /\ params !! "message"%string = Some m
              /\ params !! "access_token"%string = Some (VStr (access_token b))
        | _ => send_message r m nt s = (Raise AttributeError, s)
        end)
  /\ (float_lt (_num_api_version b) (FFin (14 # 1)) = true ->
        send_message r m nt s
        = bind (new_dict {[ "message"%string := m ]})
               (fun payload => send_recipient r payload nt) s
        /\ trace (snd (send_message r m nt s))
           = EvHttp (Request POST url (fresh_auth_args b)
                       (JsonBody (VDict
                          (<[ "notification_type"%string := VStr (NotificationType_value nt) ]>
                             (<[ "recipient"%string := VDict {[ "id"%string := r ]} ]>
                                {[ "message"%string := m ]}))))
                       ∅)
             :: trace s).
Proof.
  intros H b url. split.
  - intros V. rewrite send_message_eq. fold b. rewrite V. split; [reflexivity|].
    destruct r; try (by rewrite send_message_api16plus_eq).
    exact (modern_request s d m nt H).
  - intros V. apply float_lt_not_ge in V. rewrite send_message_eq. fold b.
    rewrite V. split; [reflexivity|].
    rewrite send_fresh_eq. simpl. rewrite answer_state. simpl.
    rewrite (current_auth_coherent _ H). reflexivity.
Qed.

Lemma send_message_branches_on_version_witness :
  (exists params,
     trace (snd (send_message (VDict {[ "id"%string := VStr "2468" ]}) (VStr "hi")
                   regular (world bot16)))
     = [EvHttp (Request POST "https://graph.facebook.com/v16.0/1055/messages"
                  params NoBody ∅)]
     /\ params = fresh_auth_args bot16
                 ∪ {[ "recipient"%string := VStr "2468";
                      "messaging_type"%string := VStr "RESPONSE";
                      "message"%string := VStr "hi" ]}
     /\ params !! "recipient"%string = Some (VStr "2468")
     /\ params !! "messaging_type"%string = Some (VStr "RESPONSE")
     /\ params !! "message"%string = Some (VStr "hi")
     /\ params !! "access_token"%string = Some (VStr "TOKEN"))
  /\ send_message (VStr "2468") (VStr "hi") regular (world bot16)
     = (Raise AttributeError, world bot16)
  /\ trace (snd (send_message (VStr "2468") (VStr "hi") no_push (world bot13)))
     = [EvHttp (Request POST "https://graph.facebook.com/v13.0/1055/messages"
                  {[ "access_token"%string := VStr "TOKEN" ]}
                  (JsonBody (VDict
                     (<[ "notification_type"%string := VStr "NO_PUSH" ]>
                        (<[ "recipient"%string := VDict {[ "id"%string := VStr "2468" ]} ]>
                           {[ "message"%string := VStr "hi" ]}))))
                  ∅)].
Proof.
  split; [|split].
  - exact (proj2 (proj1 (send_message_branches_on_version (world bot16)
                           (VDict {[ "id"%string := VStr "2468" ]}) (VStr "hi") regular I)
                        eq_refl)).
  - exact (proj2 (proj1 (send_message_branches_on_version (world bot16)
                           (VStr "2468") (VStr "hi") regular I)
                        eq_refl)).
  - exact (proj2 (proj2 (send_message_branches_on_version (world bot13)
                           (VStr "2468") (VStr "hi") no_push I)
                        eq_refl)).
Defined.

(** C1, as the specification has it, fails: on a session of version 16.0
    [send_message] to the plain id ["2468"] builds no request; it raises
    [AttributeError] and the trace holds no request at all. *)
Lemma modern_request_counterexample :
  float_ge (_num_api_version (self (world bot16))) (FFin (14 # 1)) = true
  /\ fst (send_message (VStr "2468") (VStr "hi") regular (world bot16))
     = Raise AttributeError
  /\ ~ (exists rq,
          EvHttp rq ∈ trace (snd (send_message (VStr "2468") (VStr "hi") regular
                                    (world bot16)))).
Proof.
  split; [reflexivity|]. split; [reflexivity|].
  intros [rq H]. vm_compute in H. by apply elem_of_nil in H.
Qed.

(** C4, as the code has it: on the modern path the [id] is taken with the
    dictionary method [get].  A recipient given as a dictionary yields its
    [id] entry, or [None] when it has none, and that value is sent as the
    [recipient] parameter; a recipient that is no dictionary (a plain string
    or number among them) has no such method: the call raises
    [AttributeError] and nothing is sent. *)
Theorem modern_recipient_extraction s r m nt :
  cache_coherent (self s) ->
  float_ge (_num_api_version (self s)) (FFin (14 # 1)) = true ->
  match r with
  | VDict d =>
      exists params,
        trace (snd (send_message r m nt s))
        = EvHttp (Request POST (messages_endpoint (self s)) params NoBody ∅) :: trace s
        /\ params !! "recipient"%string = Some (default VNone (d !! "id"%string))
        /\ (d !! "id"%string = None -> params !! "recipient"%string = Some VNone)
  | _ => send_message r m nt s = (Raise AttributeError, s)
  end.
Proof.
  intros H V. rewrite send_message_eq, V.
  destruct r; try (by rewrite send_message_api16plus_eq).
  destruct (modern_request s d m nt H) as (params & Ht & _ & Hr & _).
  exists params. split; [exact Ht|]. split; [exact Hr|].
  intros Hd. by rewrite Hr, Hd.
Qed.

Lemma modern_recipient_extraction_witness :
  (exists params,
     trace (snd (send_message (VDict {[ "psid"%string := VStr "2468" ]}) (VStr "hi")
                   regular (world bot16)))
     = [EvHttp (Request POST "https://graph.facebook.com/v16.0/1055/messages"
                  params NoBody ∅)]
     /\ params !! "recipient"%string = Some VNone
     /\ (({[ "psid"%string := VStr "2468" ]} : gmap string value) !! "id"%string = None ->
         params !! "recipient"%string = Some VNone))
  /\ send_message (VInt 2468) (VStr "hi") regular (world bot16)
     = (Raise AttributeError, world bot16).
Proof.
  split.
  - exact (modern_recipient_extraction (world bot16)
             (VDict {[ "psid"%string := VStr "2468" ]}) (VStr "hi") regular I eq_refl).
  - exact (modern_recipient_extraction (world bot16) (VInt 2468) (VStr "hi") regular
             I eq_refl).
Defined.

(** C4, as the specification has it, fails: on a session of version 16.0 a
    recipient given as the plain string ["2468"] does not yield an empty
    value; the extraction raises, and so does the send, with nothing sent. *)
Lemma scalar_recipient_counterexample :
  float_ge (_num_api_version (self (world bot16))) (FFin (14 # 1)) = true
  /\ ~ (exists v, py_get (VStr "2468") "id" = Ok v)
  /\ fst (send_message (VStr "2468") (VStr "hi") regular (world bot16))
     = Raise AttributeError
  /\ trace (snd (send_message (VStr "2468") (VStr "hi") regular (world bot16))) = [].
Proof.
  split; [reflexivity|]. split; [|split; reflexivity].
  intros [v Hv]. discriminate Hv.
Qed.

Lemma default_loop (replies acc : list value) :
  fold_left (fun acc reply => acc ++ [quick_reply reply reply]) replies acc
  = acc ++ map (fun reply => quick_reply reply reply) replies.
Proof.
  revert acc. induction replies as [|reply replies IH]; intros acc; simpl.
  - by rewrite app_nil_r.
  - by rewrite IH, <- app_assoc.
Qed.

Lemma paired_loop (pairs : list (value * value)) (acc : list value) :
  fold_left (fun acc rp =>
               match snd rp with
               | VNone => acc ++ [quick_reply (fst rp) (fst rp)]
               | payload => acc ++ [quick_reply (fst rp) payload]
               end) pairs acc
  = acc ++ map (fun rp => quick_reply (fst rp) (payload_or_reply (fst rp) (snd rp))) pairs.
Proof.
  revert acc. induction pairs as [|[reply payload] pairs IH]; intros acc; simpl.
  - by rewrite app_nil_r.
  - destruct payload; rewrite IH, <- app_assoc; reflexivity.
Qed.

Lemma build_quick_replies_paired replies p ps :
  build_quick_replies replies (Some (p :: ps))
  = map (fun rp => quick_reply (fst rp) (payload_or_reply (fst rp) (snd rp)))
        (zip replies (p :: ps)).
Proof. unfold build_quick_replies. by rewrite paired_loop. Qed.

Lemma build_quick_replies_entries replies payloads e :
  e ∈ build_quick_replies replies payloads ->
  exists title payload, e = quick_reply title payload.
Proof.
  destruct payloads as [[|p ps]|].
  2: { rewrite build_quick_replies_paired. intros (rp & -> & _)%list_elem_of_fmap. eauto. }
  all: unfold build_quick_replies; rewrite default_loop; simpl.
  all: intros (reply & -> & _)%list_elem_of_fmap; eauto.
Qed.

(** [zip] stops at the shorter list: replies past the end of a non-empty
    payload list get no entry. *)
Example build_quick_replies_short_list :
  build_quick_replies [VStr "Yes"; VStr "No"] (Some [VStr "Y"])
  = [quick_reply (VStr "Yes") (VStr "Y")].
Proof. reflexivity. Qed.

(** C6: the quick replies list pairs the replies with the payloads position
    by position.  Without a payload list (or with an empty one) every entry
    carries its reply as payload; with one, the entry at a position carries
    the payload given there, or the reply itself where that payload is
    [None]; lists of equal length give one entry per reply; every entry has
    [content_type] ["text"]; and replies [Yes, No] with payloads [Y, None]
    give the payloads [Y] and [No].  The list is sent as [quick_replies]
    next to [text] through [send_message]. *)
Theorem quick_replies_payload_default replies payloads :
  let entries := build_quick_replies replies payloads in
  (payloads = None \/ payloads = Some [] ->
     entries = map (fun reply => quick_reply reply reply) replies)
  /\ (forall ps i reply payload,
        payloads = Some ps -> replies !! i = Some reply -> ps !! i = Some payload ->
        entries !! i
        = Some (VDict {[ "content_type"%string := VStr "text";
                         "title"%string := reply;
                         "payload"%string :=
                           match payload with VNone => reply | _ => payload end ]}))
  /\ (forall ps, payloads = Some ps -> length ps = length replies ->
                 length entries = length replies)
  /\ (forall e, e ∈ entries ->
        exists d, e = VDict d /\ d !! "content_type"%string = Some (VStr "text"))
  /\ build_quick_replies [VStr "Yes"; VStr "No"] (Some [VStr "Y"; VNone])
     = [ VDict {[ "content_type"%string := VStr "text";
                  "title"%string := VStr "Yes"; "payload"%string := VStr "Y" ]};
         VDict {[ "content_type"%string := VStr "text";
                  "title"%string := VStr "No"; "payload"%string := VStr "No" ]} ]
  /\ (forall r text s,
        send_quick_replies_message r text replies payloads s
        = send_message r (VDict {[ "text"%string := text;
                                   "quick_replies"%string := VList entries ]})
                       regular s).
Proof.
  intros entries. subst entries. repeat apply conj.
  - intros [-> | ->]; unfold build_quick_replies; by rewrite default_loop.
  - intros ps i reply payload -> Hr Hp.
    destruct ps as [|p ps]; [by rewrite lookup_nil in Hp|].
    rewrite build_quick_replies_paired, list_lookup_fmap.
    rewrite lookup_zip_with, Hr. simpl. rewrite Hp. reflexivity.
  - intros ps -> Hlen. destruct ps as [|p ps].
    + unfold build_quick_replies. rewrite default_loop. simpl. by rewrite length_map.
    + rewrite build_quick_replies_paired, length_map.
      rewrite length_zip_with. lia.
  - intros e (title & payload & ->)%build_quick_replies_entries.
    eexists. split; [reflexivity|]. reflexivity.
  - reflexivity.
  - reflexivity.
Qed.

Lemma quick_replies_payload_default_witness :
  build_quick_replies [VStr "Yes"; VStr "No"] None
  = [quick_reply (VStr "Yes") (VStr "Yes"); quick_reply (VStr "No") (VStr "No")]
  /\ build_quick_replies [VStr "Yes"; VStr "No"] (Some [VStr "Y"; VNone]) !! 1%nat
     = Some (quick_reply (VStr "No") (VStr "No"))
  /\ length (build_quick_replies [VStr "Yes"; VStr "No"] (Some [VStr "Y"; VNone]))
     = 2%nat.
Proof.
  split; [|split].
  - exact (proj1 (quick_replies_payload_default [VStr "Yes"; VStr "No"] None)
             (or_introl eq_refl)).
  - exact (proj1 (proj2 (quick_replies_payload_default [VStr "Yes"; VStr "No"]
                           (Some [VStr "Y"; VNone])))
             [VStr "Y"; VNone] 1%nat (VStr "No") VNone eq_refl eq_refl eq_refl).
  - exact (proj1 (proj2 (proj2 (quick_replies_payload_default [VStr "Yes"; VStr "No"]
                                  (Some [VStr "Y"; VNone]))))
             [VStr "Y"; VNone] eq_refl eq_refl).
Defined.

(** ** Further properties of the operations *)

Lemma new_events_app (evs tr : list event) : new_events tr (evs ++ tr) = evs.
Proof.
  unfold new_events. rewrite length_app.
  replace (length evs + length tr - length tr)%nat with (length evs) by lia.
  by rewrite take_app_length.
Qed.

Lemma new_events_0 (tr : list event) : new_events tr tr = [].
Proof. exact (new_events_app [] tr). Qed.

Lemma new_events_1 e (tr : list event) : new_events tr (e :: tr) = [e].
Proof. exact (new_events_app [e] tr). Qed.

Lemma new_events_4 e1 e2 e3 e4 (tr : list event) :
  new_events tr (e1 :: e2 :: e3 :: e4 :: tr) = [e1; e2; e3; e4].
Proof. exact (new_events_app [e1; e2; e3; e4] tr). Qed.

(** Every operation as one of: an early exception, a request, or a file
    read followed by a request. *)
Ltac by_cases c :=
  destruct c; to_primitives;
  rewrite ?self_set_net, ?heap_set_net, ?fs_set_net;
  split_cases;
  rewrite ?send_raw_eq, ?answer_state, ?answer_if_200_state;
  cbn [snd fst trace log set_self set_heap self heap fs net];
  rewrite ?new_events_0, ?new_events_1, ?new_events_4.

(** X1: Every operation performs at most one request, as its last effect; the
    only other effects are the opening, reading and closing, in this order,
    of one existing file, all before the request. *)
Theorem one_request_after_the_file c s :
  trace (snd (perform c s)) = effects_of c s ++ trace s
  /\ (effects_of c s = []
      \/ (exists rq, effects_of c s = [EvHttp rq])
      \/ (exists rq path,
            effects_of c s = [EvHttp rq; EvClose path; EvRead path; EvOpen path]
            /\ is_Some (fs s !! path))).
Proof.
  unfold effects_of. by_cases c; split; eauto 6.
Qed.

Lemma answer_result rq s :
  fst (answer rq s)
  = match net s rq with
    | None => Raise ConnectionError
    | Some resp =>
        match json resp with Some v => Ok v | None => Raise JSONDecodeError end
    end.
Proof.
  unfold answer, bind, http, response_json.
  destruct (net s rq) as [resp|]; [destruct (json resp)|]; reflexivity.
Qed.

Lemma answer_if_200_result rq s :
  fst (answer_if_200 rq s)
  = match net s rq with
    | None => Raise ConnectionError
    | Some resp =>
        if status_code resp =? 200
        then match json resp with Some v => Ok v | None => Raise JSONDecodeError end
        else Ok VNone
    end.
Proof.
  unfold answer_if_200, bind, http, response_json, ret.
  destruct (net s rq) as [resp|]; [|reflexivity].
  destruct (status_code resp =? 200); [destruct (json resp)|]; reflexivity.
Qed.

(** The request among the effects [by_cases] has listed. *)
Ltac the_request H :=
  repeat (apply elem_of_cons in H as [H | H]);
  try (by apply elem_of_nil in H); try discriminate H;
  try (injection H as ->).

(** X2: The transport's answer is the operation's answer: a transport failure
    and an undecodable body surface as the exceptions they are, a decoded
    body is returned as it is, whatever the status code, except that
    [get_user_info] turns every status other than 200 into [None].  And an
    operation that sent nothing has raised, leaving the state as it was. *)
Theorem transport_answer_passes_through c s :
  (forall rq, EvHttp rq ∈ effects_of c s ->
     fst (perform c s)
     = match net s rq with
       | None => Raise ConnectionError
       | Some resp =>
           if is_user_info c && negb (status_code resp =? 200) then Ok VNone
           else match json resp with Some v => Ok v | None => Raise JSONDecodeError end
       end)
  /\ (effects_of c s = [] -> exists e, perform c s = (Raise e, s)).
Proof.
  unfold effects_of. by_cases c; (split; [intros rq H | intros H]);
    try discriminate H; eauto; the_request H;
    rewrite ?answer_result, ?answer_if_200_result;
    cbn [net set_self set_heap log is_user_info andb]; try reflexivity.
  all: destruct (net s _) as [resp|]; [|reflexivity].
  all: by destruct (status_code resp =? 200).
Qed.

(** For the witnesses: the request an operation sends from a sample state. *)
Ltac with_request c s k :=
  let e := eval vm_compute in (effects_of c s) in
  match e with
  | EvHttp ?rq :: _ => k rq
  end.

Ltac sent_it := vm_compute; constructor.

Lemma transport_answer_passes_through_witness :
  fst (perform (SendTextMessage (VStr "2468") (VStr "hi") regular)
         (set_net (always 400 (Some reply_error)) (world bot13)))
  = Ok reply_error
  /\ fst (perform (SetGetStarted VNone) (set_net down (world bot13)))
     = Raise ConnectionError
  /\ exists e,
       perform (SendRecipient (VStr "2468") 7%positive regular) (world bot13)
       = (Raise e, world bot13).
Proof.
  split; [|split].
  - with_request (SendTextMessage (VStr "2468") (VStr "hi") regular)
      (set_net (always 400 (Some reply_error)) (world bot13))
      ltac:(fun rq =>
        exact (proj1 (transport_answer_passes_through
                        (SendTextMessage (VStr "2468") (VStr "hi") regular)
                        (set_net (always 400 (Some reply_error)) (world bot13)))
                 rq ltac:(sent_it))).
  - with_request (SetGetStarted VNone) (set_net down (world bot13))
      ltac:(fun rq =>
        exact (proj1 (transport_answer_passes_through (SetGetStarted VNone)
                        (set_net down (world bot13)))
                 rq ltac:(sent_it))).
  - exact (proj2 (transport_answer_passes_through
                    (SendRecipient (VStr "2468") 7%positive regular) (world bot13))
             eq_refl).
Defined.

Lemma fresh_auth_proof b :
  fresh_auth_args b !! "appsecret_proof"%string
  = (fun secret => VStr (generate_appsecret_proof (access_token b) secret))
      <$> app_secret b.
Proof. unfold fresh_auth_args. by destruct (app_secret b). Qed.

Lemma user_info_fields_other fields params k :
  user_info_fields fields = Ok params -> k <> "fields"%string -> params !! k = None.
Proof.
  unfold user_info_fields. intros H Hk.
  destruct fields; try (injection H as <-; apply lookup_empty).
  all: destruct (str_join "," l); [|discriminate H].
  all: injection H as <-; by apply lookup_singleton_ne.
Qed.

(** The parameters every request carries next to the authentication. *)
Lemma auth_params_kept (auth extra : gmap string value) k :
  extra !! k = None -> (auth ∪ extra) !! k = auth !! k.
Proof.
  intros H. rewrite lookup_union, H. by destruct (auth !! k).
Qed.

(** X3: Every request of every operation carries the access token as a query
    parameter, and the app secret proof exactly when the bot has an app
    secret (on a bot whose cache, if filled, was filled by [auth_args]). *)
Theorem every_request_is_authenticated c s rq :
  cache_coherent (self s) ->
  EvHttp rq ∈ effects_of c s ->
  rq_params rq !! "access_token"%string = Some (VStr (access_token (self s)))
  /\ rq_params rq !! "appsecret_proof"%string
     = (fun secret => VStr (generate_appsecret_proof (access_token (self s)) secret))
         <$> app_secret (self s).
Proof.
  intros Hc. rewrite <- fresh_auth_token, <- fresh_auth_proof.
  rewrite <- (current_auth_coherent _ Hc). clear Hc.
  unfold effects_of. by_cases c; intros H; the_request H;
    cbn [rq_params]; unfold modern_params;
    rewrite ?auth_params_kept; try done.
  all: by eapply user_info_fields_other.
Qed.

Lemma every_request_is_authenticated_witness :
  exists rq,
    EvHttp rq ∈ effects_of (GetUserInfo "2468" (VList [VStr "first_name"])) (world bot16)
    /\ rq_params rq !! "access_token"%string = Some (VStr "TOKEN")
    /\ rq_params rq !! "appsecret_proof"%string
       = Some (VStr (generate_appsecret_proof "TOKEN" "SECRET")).
Proof.
  with_request (GetUserInfo "2468" (VList [VStr "first_name"])) (world bot16)
    ltac:(fun rq =>
      exists rq; split;
      [ sent_it
      | exact (every_request_is_authenticated
                 (GetUserInfo "2468" (VList [VStr "first_name"])) (world bot16) rq
                 I ltac:(sent_it)) ]).
Defined.

(** X4: Every request goes to the endpoint of its operation with the verb of
    its operation: the messages endpoint with POST for the sends, the
    messenger profile endpoint with POST for the two setters and DELETE for
    the two removals, and the recipient's own node with GET for the profile
    lookup. *)
Theorem requests_go_to_their_endpoint c s rq :
  EvHttp rq ∈ effects_of c s ->
  rq_method rq = method_of c /\ rq_url rq = endpoint_of (self s) c.
Proof.
  unfold effects_of. by_cases c; intros H; the_request H; done.
Qed.

Lemma requests_go_to_their_endpoint_witness :
  exists rq,
    EvHttp rq ∈ effects_of RemovePersistentMenu (world bot13)
    /\ rq_method rq = DELETE
    /\ rq_url rq = "https://graph.facebook.com/v13.0/1055/messenger_profile"%string.
Proof.
  with_request RemovePersistentMenu (world bot13)
    ltac:(fun rq =>
      exists rq; split;
      [ sent_it
      | exact (requests_go_to_their_endpoint RemovePersistentMenu (world bot13) rq
                 ltac:(sent_it)) ]).
Defined.

(** X5: No operation reconfigures the session or touches the world around it:
    the bot's fields other than the cache, the file system and the transport
    are after the call what they were before. *)
Theorem operations_keep_the_session c s :
  let s' := snd (perform c s) in
  api_version (self s') = api_version (self s)
  /\ _num_api_version (self s') = _num_api_version (self s)
  /\ app_secret (self s') = app_secret (self s)
  /\ page_id (self s') = page_id (self s)
  /\ graph_url (self s') = graph_url (self s)
  /\ access_token (self s') = access_token (self s)
  /\ fs s' = fs s
  /\ net s' = net s.
Proof.
  by_cases c; done.
Qed.

(** X6: The authentication parameters are built once: an operation that sent a
    request leaves them in the cache, and once the cache is filled no
    operation changes the bot any more. *)
Theorem auth_cache_is_filled_once c s :
  (effects_of c s <> [] ->
     _auth_args (self (snd (perform c s))) = Some (current_auth (self s)))
  /\ (forall auth, _auth_args (self s) = Some auth ->
        self (snd (perform c s)) = self s).
Proof.
  split.
  - unfold effects_of. by_cases c; intros H; done.
  - intros auth H. destruct (perform_self c s) as [-> | ->]; [done|].
    by apply (cached_filled _ auth).
Qed.

Lemma auth_cache_is_filled_once_witness :
  _auth_args (self (snd (perform (SendAction (VStr "2468") (VStr "typing_on") regular)
                           (world bot13))))
  = Some {[ "access_token"%string := VStr "TOKEN" ]}
  /\ self (snd (perform RemoveGetStarted
                  (snd (perform RemoveGetStarted (world bot13)))))
     = self (snd (perform RemoveGetStarted (world bot13))).
Proof.
  split.
  - refine (proj1 (auth_cache_is_filled_once
                     (SendAction (VStr "2468") (VStr "typing_on") regular)
                     (world bot13)) _).
    vm_compute. discriminate.
  - exact (proj2 (auth_cache_is_filled_once RemoveGetStarted
                    (snd (perform RemoveGetStarted (world bot13))))
             _ eq_refl).
Defined.

Lemma fresh_lookup (h : gmap loc value) : h !! fresh (dom h) = None.
Proof. apply not_elem_of_dom, is_fresh. Qed.

(** X7: The only object an operation ever writes to is the payload handed to
    [send_recipient]: every other object of the heap is after the call what
    it was before, and at most one object is created, at a new address. *)
Theorem existing_objects_are_kept c s :
  (forall q v, heap s !! q = Some v ->
     (forall r nt, c <> SendRecipient r q nt) ->
     heap (snd (perform c s)) !! q = Some v)
  /\ (forall q, heap s !! q = None -> q <> fresh (dom (heap s)) ->
        heap (snd (perform c s)) !! q = None).
Proof.
  split.
  - intros q v H Hc. by_cases c; try done.
    all: rewrite lookup_insert_ne; [done|]; intros Hq; subst.
    all: first [ by rewrite fresh_lookup in H | by eapply Hc ].
  - intros q H Hq. by_cases c; try done; rewrite lookup_insert_ne; try done.
    intros ->. congruence.
Qed.

Lemma existing_objects_are_kept_witness :
  heap (snd (perform (SendTagMessage (VStr "2468") (VStr "hi")
                        (VStr TagType.human_agent) regular) (world bot13)))
    !! 1%positive
  = heap (world bot13) !! 1%positive
  /\ heap (snd (perform (SendTagMessage (VStr "2468") (VStr "hi")
                           (VStr TagType.human_agent) regular) (world bot13)))
       !! 9%positive = None.
Proof.
  split.
  - refine (proj1 (existing_objects_are_kept
                     (SendTagMessage (VStr "2468") (VStr "hi")
                        (VStr TagType.human_agent) regular) (world bot13))
              1%positive _ eq_refl _).
    intros r nt H. discriminate H.
  - refine (proj2 (existing_objects_are_kept
                     (SendTagMessage (VStr "2468") (VStr "hi")
                        (VStr TagType.human_agent) regular) (world bot13))
              9%positive eq_refl _).
    vm_compute. discriminate.
Defined.

(** X8: [send_recipient] on anything but a dictionary fails on its first
    assignment: a [TypeError], with nothing written and nothing sent. *)
Theorem send_recipient_needs_a_dictionary s r p nt :
  (forall d, heap s !! p <> Some (VDict d)) ->
  send_recipient r p nt s = (Raise TypeError, s).
Proof.
  intros H. rewrite send_recipient_eq.
  destruct (heap s !! p) as [[]|]; try reflexivity. by destruct (H d).
Qed.

Lemma send_recipient_needs_a_dictionary_witness :
  send_recipient (VStr "2468") 7%positive regular (world bot13)
  = (Raise TypeError, world bot13).
Proof.
  apply (send_recipient_needs_a_dictionary (world bot13) (VStr "2468") 7%positive regular).
  intros d H. vm_compute in H. discriminate H.
Defined.

Lemma wrapped_overwrite r1 nt1 r2 nt2 d :
  wrapped r2 nt2 (wrapped r1 nt1 d) = wrapped r2 nt2 d.
Proof.
  unfold wrapped. apply map_eq. intros k.
  destruct (decide (k = "notification_type"%string)) as [->|Hn];
    [by rewrite !lookup_insert_eq|].
  destruct (decide (k = "recipient"%string)) as [->|Hr];
    repeat first [rewrite lookup_insert_eq | rewrite lookup_insert_ne by done];
    reflexivity.
Qed.

(** X9: Sending one payload object twice: the second [send_recipient] overwrites
    what the first wrote.  The object it leaves and the request it sends are
    those of a single call with the second recipient and notification
    type. *)
Theorem send_recipient_last_write_wins s r1 nt1 r2 nt2 p d :
  heap s !! p = Some (VDict d) ->
  let s1 := snd (send_recipient r1 p nt1 s) in
  heap (snd (send_recipient r2 p nt2 s1)) = heap (snd (send_recipient r2 p nt2 s))
  /\ new_events (trace s1) (trace (snd (send_recipient r2 p nt2 s1)))
     = new_events (trace s) (trace (snd (send_recipient r2 p nt2 s))).
Proof.
  intros E s1. subst s1.
  rewrite (send_recipient_eq r1 p nt1 s), (send_recipient_eq r2 p nt2 s), E.
  rewrite !send_raw_eq, !answer_state. rewrite send_recipient_eq.
  cbn [heap set_heap set_self log]. rewrite lookup_insert_eq.
  rewrite send_raw_eq, answer_state.
  cbn [heap set_heap set_self log trace self]. rewrite !lookup_insert_eq.
  rewrite insert_insert_eq, wrapped_overwrite, !new_events_1. done.
Qed.

Lemma send_recipient_last_write_wins_witness :
  let s1 := snd (send_recipient (VStr "1357") 1%positive silent_push (world bot13)) in
  heap (snd (send_recipient (VStr "2468") 1%positive regular s1))
  = heap (snd (send_recipient (VStr "2468") 1%positive regular (world bot13)))
  /\ new_events (trace s1) (trace (snd (send_recipient (VStr "2468") 1%positive regular s1)))
     = new_events (trace (world bot13))
         (trace (snd (send_recipient (VStr "2468") 1%positive regular (world bot13)))).
Proof.
  exact (send_recipient_last_write_wins (world bot13) (VStr "1357") silent_push
           (VStr "2468") regular 1%positive _ eq_refl).
Defined.

(** X10: Whatever the session's API version, [send_action] sends one JSON-body
    POST to the messages endpoint: [{sender_action}] wrapped with the
    recipient and the notification type. *)
Theorem send_action_always_legacy s r action nt :
  trace (snd (send_action r action nt s))
  = EvHttp (Request POST (graph_url (self s) +:+ "/" +:+ page_id (self s) +:+ "/messages")
              (current_auth (self s))
              (JsonBody (VDict
                 (<[ "notification_type"%string := VStr (NotificationType_value nt) ]>
                    (<[ "recipient"%string := VDict {[ "id"%string := r ]} ]>
                       {[ "sender_action"%string := action ]}))))
              ∅)
    :: trace s.
Proof.
  unfold send_action. rewrite send_fresh_eq. simpl.
  rewrite answer_state. reflexivity.
Qed.

(** X11: From version 14.0 on, every operation that ends in [send_message] (the
    text, template, quick replies and attachment-by-URL sends) raises
    [AttributeError] on a recipient that is not a dictionary, a plain id
    among them, and leaves the state as it was: nothing is sent. *)
Theorem modern_sends_need_a_dictionary_recipient c s r :
  float_ge (_num_api_version (self s)) (FFin (14 # 1)) = true ->
  send_message_recipient c = Some r ->
  is_dict r = false ->
  perform c s = (Raise AttributeError, s).
Proof.
  intros V Hc Hr.
  destruct c; try discriminate Hc; injection Hc as ->; to_primitives;
    rewrite V; by destruct r.
Qed.

Lemma modern_sends_need_a_dictionary_recipient_witness :
  perform (SendImageUrl (VStr "2468") "https://example.org/cat.png" regular)
    (world (bot_of (Bot_init "TOKEN" None None None)))
  = (Raise AttributeError, world (bot_of (Bot_init "TOKEN" None None None))).
Proof.
  exact (modern_sends_need_a_dictionary_recipient
           (SendImageUrl (VStr "2468") "https://example.org/cat.png" regular)
           (world (bot_of (Bot_init "TOKEN" None None None))) (VStr "2468")
           eq_refl eq_refl eq_refl).
Defined.

(** *** The [fields] of the profile lookup *)

Lemma str_join_strings sep (names : list string) :
  str_join sep (VStr <$> names) = Ok (String.concat sep names).
Proof.
  induction names as [|name [|name' names] IH]; try reflexivity.
  change (str_join sep (VStr <$> name :: name' :: names))
    with (match str_join sep (VStr <$> name' :: names) with
          | Ok t => Ok (name +:+ sep +:+ t)
          | Raise e => Raise e
          end).
  by rewrite IH.
Qed.

Lemma all_strings (items : list value) :
  forallb is_str items = true -> exists names, items = VStr <$> names.
Proof.
  induction items as [|item items IH]; intros H.
  - by exists [].
  - simpl in H. apply andb_true_iff in H as [Hi Hr].
    destruct (IH Hr) as [names ->]. destruct item; try discriminate Hi.
    by exists (s :: names).
Qed.

Lemma str_join_other sep (items : list value) :
  forallb is_str items = false -> str_join sep items = Raise TypeError.
Proof.
  induction items as [|item items IH]; intros H; [discriminate H|].
  simpl in H. destruct item; try reflexivity.
  simpl in H. destruct items as [|item' items]; [discriminate H|].
  change (str_join sep (VStr s :: item' :: items))
    with (match str_join sep (item' :: items) with
          | Ok t => Ok (s +:+ sep +:+ t)
          | Raise e => Raise e
          end).
  by rewrite (IH H).
Qed.

(** X12: [get_user_info] asks for [fields] only when given a list or tuple, and
    then for the names joined by commas; a list holding anything but strings
    raises [TypeError] before anything is sent; any other [fields] value, a
    single string among them, is silently ignored. *)
Theorem get_user_info_fields s r fields :
  cache_coherent (self s) ->
  match fields with
  | VList items | VTuple items =>
      if forallb is_str items then
        exists rq names,
          items = VStr <$> names
          /\ effects_of (GetUserInfo r fields) s = [EvHttp rq]
          /\ rq_params rq !! "fields"%string
             = Some (VStr (String.concat "," names))
      else get_user_info r fields s = (Raise TypeError, s)
  | _ =>
      exists rq,
        effects_of (GetUserInfo r fields) s = [EvHttp rq]
        /\ rq_params rq !! "fields"%string = None
  end.
Proof.
  intros Hc. unfold effects_of, perform. rewrite get_user_info_eq.
  rewrite (current_auth_coherent _ Hc).
  assert (Hno : fresh_auth_args (self s) !! "fields"%string = None)
    by (by apply fresh_auth_other).
  destruct fields; simpl;
    try (rewrite answer_if_200_state; cbn [trace log set_self];
         rewrite new_events_1; eexists; split; [reflexivity|];
         cbn [rq_params]; by rewrite lookup_union_r).
  all: destruct (forallb is_str l) eqn:Hs;
    [ apply all_strings in Hs as [names ->]; rewrite str_join_strings
    | by rewrite (str_join_other _ _ Hs) ].
  all: rewrite answer_if_200_state; cbn [trace log set_self snd];
    rewrite new_events_1; eexists _, names; split; [reflexivity|];
    split; [reflexivity|]; cbn [rq_params]; by rewrite lookup_union_r.
Qed.

Lemma get_user_info_fields_witness :
  (exists rq names,
     [VStr "first_name"; VStr "locale"] = VStr <$> names
     /\ effects_of (GetUserInfo "2468" (VTuple [VStr "first_name"; VStr "locale"]))
          (world bot13) = [EvHttp rq]
     /\ rq_params rq !! "fields"%string = Some (VStr (String.concat "," names)))
  /\ get_user_info "2468" (VList [VStr "first_name"; VInt 3]) (world bot13)
     = (Raise TypeError, world bot13)
  /\ exists rq,
       effects_of (GetUserInfo "2468" (VStr "first_name")) (world bot13) = [EvHttp rq]
       /\ rq_params rq !! "fields"%string = None.
Proof.
  split; [|split].
  - exact (get_user_info_fields (world bot13) "2468"
             (VTuple [VStr "first_name"; VStr "locale"]) I).
  - exact (get_user_info_fields (world bot13) "2468"
             (VList [VStr "first_name"; VInt 3]) I).
  - exact (get_user_info_fields (world bot13) "2468" (VStr "first_name") I).
Defined.

(** *** The name and the type of an uploaded file *)

Lemma str_split_nonempty sep s : str_split sep s <> [].
Proof.
  destruct s as [|c r]; simpl; [done|].
  destruct (Ascii.eqb c sep); [done|]. by destruct (str_split sep r).
Qed.

Lemma str_split_concat sep s :
  String.concat (String sep EmptyString) (str_split sep s) = s.
Proof.
  induction s as [|c r IH]; [reflexivity|]. simpl.
  pose proof (str_split_nonempty sep r) as Hne.
  destruct (Ascii.eqb c sep) eqn:E.
  - apply Ascii.eqb_eq in E as ->.
    destruct (str_split sep r) as [|w ws]; [done|].
    change (String.concat (String sep "") ("" :: w :: ws))%string
      with (String sep (String.concat (String sep "") (w :: ws))).
    by rewrite IH.
  - destruct (str_split sep r) as [|w ws]; [done|].
    rewrite <- IH. by destruct ws.
Qed.

Lemma str_split_pieces sep s piece :
  piece ∈ str_split sep s -> occurs sep piece = false.
Proof.
  revert piece. induction s as [|c r IH]; intros piece; simpl.
  - by intros ->%list_elem_of_singleton.
  - destruct (Ascii.eqb c sep) eqn:E.
    + intros [-> | H]%elem_of_cons; [done | by apply IH].
    + destruct (str_split sep r) as [|w ws].
      * intros ->%list_elem_of_singleton. simpl. by rewrite E.
      * intros [-> | H]%elem_of_cons.
        -- simpl. rewrite E. apply IH. by left.
        -- apply IH. by right.
Qed.

Lemma str_split_whole sep s : occurs sep s = false -> str_split sep s = [s].
Proof.
  induction s as [|c r IH]; [reflexivity|]. simpl.
  intros [-> H]%orb_false_iff. by rewrite (IH H).
Qed.

Lemma last_item_elem (l : list string) : l <> [] -> last_item l ∈ l.
Proof.
  unfold last_item. induction l as [|x [|y l] IH]; intros H; [done| by left |].
  right. by apply IH.
Qed.

Lemma append_assoc (a b c : string) : (a +:+ b) +:+ c = a +:+ (b +:+ c).
Proof.
  induction a as [|x a IH]; [reflexivity|].
  change (String x ((a +:+ b) +:+ c) = String x (a +:+ (b +:+ c))).
  by rewrite IH.
Qed.

Lemma concat_ends_with_last sep (l : list string) :
  l <> [] -> exists front, String.concat sep l = front +:+ last_item l.
Proof.
  unfold last_item. induction l as [|x [|y l] IH]; intros H; [done| by exists ""%string |].
  destruct IH as [front Hf]; [done|].
  exists (x +:+ sep +:+ front).
  change (String.concat sep (x :: y :: l)) with (x +:+ sep +:+ String.concat sep (y :: l)).
  rewrite Hf. change (List.last (x :: y :: l) ""%string) with (List.last (y :: l) ""%string).
  by rewrite !append_assoc.
Qed.

(** What [l[-1]] of a split is: the end of the string after the last
    separator, or the whole string when it has none. *)
Lemma last_piece sep s :
  occurs sep (last_item (str_split sep s)) = false
  /\ (exists front, s = front +:+ last_item (str_split sep s))
  /\ (occurs sep s = false -> last_item (str_split sep s) = s).
Proof.
  split; [|split].
  - apply (str_split_pieces sep s), last_item_elem, str_split_nonempty.
  - destruct (concat_ends_with_last (String sep "") (str_split sep s))
      as [front Hf]; [apply str_split_nonempty|].
    exists front. by rewrite <- Hf, str_split_concat.
  - intros H. by rewrite (str_split_whole _ _ H).
Qed.

Lemma str_split_single sep s w : str_split sep s = [w] -> occurs sep s = false.
Proof.
  intros H. pose proof (str_split_concat sep s) as Hc. rewrite H in Hc.
  simpl in Hc. subst w. apply (str_split_pieces sep s). rewrite H. by left.
Qed.

(** In a string that has the separator, [l[-1]] of the split is exactly
    what follows the last one. *)
Lemma last_piece_after sep s :
  occurs sep s = true ->
  exists front, s = front +:+ String sep (last_item (str_split sep s)).
Proof.
  unfold last_item. induction s as [|c r IH]; [discriminate|]. simpl.
  pose proof (str_split_nonempty sep r) as Hne.
  destruct (Ascii.eqb c sep) eqn:E; simpl.
  - intros _. apply Ascii.eqb_eq in E as ->.
    destruct (occurs sep r) eqn:Hr.
    + destruct (IH eq_refl) as [front Hf]. exists (String sep front).
      destruct (str_split sep r) as [|w ws]; [done|].
      change (String sep front +:+ String sep (List.last (w :: ws) ""%string))
        with (String sep (front +:+ String sep (List.last (w :: ws) ""%string))).
      by rewrite <- Hf.
    + exists ""%string. by rewrite (str_split_whole _ _ Hr).
  - intros Hr. destruct (IH Hr) as [front Hf]. exists (String c front).
    destruct (str_split sep r) as [|w [|w' ws]] eqn:Hs; [done| |].
    + apply str_split_single in Hs. congruence.
    + change (String c front +:+ String sep (List.last (String c w :: w' :: ws) ""%string))
        with (String c (front +:+ String sep (List.last (w :: w' :: ws) ""%string))).
      by rewrite <- Hf.
Qed.

Lemma occurs_after sep front n : occurs sep (front +:+ String sep n) = true.
Proof.
  induction front as [|c front IH].
  - simpl. by rewrite Ascii.eqb_refl.
  - change (occurs sep (String c (front +:+ String sep n)) = true).
    simpl. rewrite IH. apply orb_true_r.
Qed.

(** There is one way only to cut a string at its last separator. *)
Lemma after_last_unique sep d1 n1 :
  forall d2 n2,
    d1 +:+ String sep n1 = d2 +:+ String sep n2 ->
    occurs sep n1 = false -> occurs sep n2 = false -> n1 = n2.
Proof.
  induction d1 as [|c d1 IH]; intros [|c' d2] n2 H H1 H2.
  - by injection H.
  - injection H as _ H. rewrite H, occurs_after in H1. discriminate H1.
  - injection H as _ H. rewrite <- H, occurs_after in H2. discriminate H2.
  - injection H as _ H. by apply (IH d2 n2).
Qed.

Lemma last_piece_is sep s front n :
  s = front +:+ String sep n -> occurs sep n = false ->
  last_item (str_split sep s) = n.
Proof.
  intros Hs Hn.
  destruct (last_piece_after sep s) as [front' Hf];
    [rewrite Hs; apply occurs_after|].
  destruct (last_piece sep s) as (Hl & _ & _).
  symmetry. apply (after_last_unique sep front n front'); [congruence | done | done].
Qed.

(** X13: The file part of an upload is named by what follows the last slash of
    the path and typed [attachment_type/ext], where [ext] is what follows the
    last dot of the whole path: the name has no slash and the path is some
    directory, a slash and the name, unless the path has no slash and is its
    own name; [ext] has no dot and the path is some stem, a dot and [ext],
    unless the path has no dot and is its own [ext]; and however the path is
    cut into a front, a slash (a dot) and a rest free of it, the rest is the
    name (is [ext]).  The bytes are those of the file. *)
Theorem attachment_name_and_type s r ty path nt reuse data :
  fs s !! path = Some data ->
  exists rq fields name ext,
    effects_of (SendAttachment r ty path nt reuse) s
    = [EvHttp rq; EvClose path; EvRead path; EvOpen path]
    /\ rq_body rq = MultipartBody fields
    /\ fields !! "filedata"%string = Some (FFile name data (ty +:+ "/" +:+ ext))
    /\ occurs "/" name = false /\ (exists dir, path = dir +:+ name)
    /\ occurs "." ext = false /\ (exists stem, path = stem +:+ ext)
    /\ (occurs "/" path = false -> name = path)
    /\ (occurs "." path = false -> ext = path)
    /\ (occurs "/" path = true -> exists dir, path = dir +:+ String "/" name)
    /\ (occurs "." path = true -> exists stem, path = stem +:+ String "." ext)
    /\ (forall dir n, path = dir +:+ String "/" n -> occurs "/" n = false -> name = n)
    /\ (forall stem e, path = stem +:+ String "." e -> occurs "." e = false -> ext = e).
Proof.
  intros E. unfold effects_of, perform. rewrite send_attachment_eq, E.
  cbn zeta. rewrite answer_state. cbn [trace log set_self snd].
  rewrite new_events_4.
  destruct (last_piece "/" path) as (N1 & N2 & N3).
  destruct (last_piece "." path) as (X1 & X2 & X3).
  eexists _, _, (basename path), (last_item (str_split "." path)).
  split; [reflexivity|]. split; [reflexivity|]. split; [reflexivity|].
  repeat split; try assumption.
  - apply (last_piece_after "/" path).
  - apply (last_piece_after "." path).
  - intros dir n. apply (last_piece_is "/" path).
  - intros stem e. apply (last_piece_is "." path).
Qed.

Lemma attachment_name_and_type_witness :
  exists rq fields name ext,
    effects_of (SendAttachment (VStr "2468") "image" "img/cat.png" regular true)
      (world bot13)
    = [EvHttp rq; EvClose "img/cat.png"; EvRead "img/cat.png"; EvOpen "img/cat.png"]
    /\ rq_body rq = MultipartBody fields
    /\ fields !! "filedata"%string = Some (FFile name photo ("image" +:+ "/" +:+ ext))
    /\ occurs "/" name = false /\ (exists dir, "img/cat.png"%string = dir +:+ name)
    /\ occurs "." ext = false /\ (exists stem, "img/cat.png"%string = stem +:+ ext)
    /\ (occurs "/" "img/cat.png" = false -> name = "img/cat.png"%string)
    /\ (occurs "." "img/cat.png" = false -> ext = "img/cat.png"%string)
    /\ (occurs "/" "img/cat.png" = true ->
        exists dir, "img/cat.png"%string = dir +:+ String "/" name)
    /\ (occurs "." "img/cat.png" = true ->
        exists stem, "img/cat.png"%string = stem +:+ String "." ext)
    /\ (forall dir n, "img/cat.png"%string = dir +:+ String "/" n ->
                      occurs "/" n = false -> name = n)
    /\ (forall stem e, "img/cat.png"%string = stem +:+ String "." e ->
                       occurs "." e = false -> ext = e).
Proof.
  exact (attachment_name_and_type (world bot13) (VStr "2468") "image" "img/cat.png"
           regular true photo eq_refl).
Defined.

(** The dot is looked for in the whole path: a dotted directory in front of
    a name without extension ends up in the announced type. *)
Example attachment_type_of_dotted_directory :
  last_item (str_split "." "v1.2/notes") = "2/notes"%string
  /\ basename "v1.2/notes" = "notes"%string.
Proof. split; reflexivity. Qed.

(** *** Quick replies beyond the payload list *)

(** X14: The quick replies list has one entry per reply when there is no payload
    list or an empty one, and otherwise as many entries as the shorter of
    the two lists: replies past the end of a non-empty payload list are left
    out of the message. *)
Theorem quick_replies_stop_at_the_shorter_list replies payloads :
  length (build_quick_replies replies payloads)
  = match payloads with
    | None | Some [] => length replies
    | Some ps => Nat.min (length replies) (length ps)
    end
  /\ (forall ps i, payloads = Some ps -> ps <> [] -> (length ps <= i)%nat ->
        build_quick_replies replies payloads !! i = None).
Proof.
  split.
  - destruct payloads as [[|p ps]|].
    2: by rewrite build_quick_replies_paired, length_map, length_zip_with.
    all: unfold build_quick_replies; rewrite default_loop; simpl.
    all: by rewrite length_map.
  - intros ps i -> Hne Hi. destruct ps as [|p ps]; [done|].
    rewrite build_quick_replies_paired. apply lookup_ge_None.
    rewrite length_map, length_zip_with. lia.
Qed.

Lemma quick_replies_stop_at_the_shorter_list_witness :
  build_quick_replies [VStr "Yes"; VStr "No"; VStr "Later"] (Some [VStr "Y"])
    !! 1%nat = None.
Proof.
  refine (proj2 (quick_replies_stop_at_the_shorter_list
                   [VStr "Yes"; VStr "No"; VStr "Later"] (Some [VStr "Y"]))
            [VStr "Y"] 1%nat eq_refl _ _).
  - discriminate.
  - simpl. lia.
Defined.

(** *** Construction and whole sessions *)

(** X15: The constructor fails exactly when [float] rejects a version that
    was given and is true, with the exception [float] raises: [ValueError]
    for a string it cannot parse, [OverflowError] for an integer beyond the
    floats, [TypeError] for any other object.  An absent or false version
    ([None], the empty string, zero, an empty list) gives the bot of version
    16.0; and every bot built has its [graph_url] made of its [api_version],
    the token and secret it was given, the page id given or ["me"] when the
    keyword is absent, and an empty cache. *)
Theorem Bot_init_outcome tok v sec pg :
  (forall b, Bot_init tok v sec pg = Ok b ->
     graph_url b = "https://graph.facebook.com/v" +:+ api_version b
     /\ access_token b = tok /\ app_secret b = sec
     /\ page_id b = default "me"%string pg /\ _auth_args b = None)
  /\ (v = None \/ (exists a, v = Some a /\ version_truthy a = false) ->
        Bot_init tok v sec pg
        = Ok (MkBot "16.0" (FFin (16 # 1)) sec (default "me"%string pg)
                    "https://graph.facebook.com/v16.0" tok None))
  /\ (forall e,
        Bot_init tok v sec pg = Raise e
        <-> exists a,
              v = Some a /\ version_truthy a = true
              /\ match a with
                 | VersionStr _ None => e = ValueError
                 | VersionHuge _ => e = OverflowError
                 | VersionOther _ _ => e = TypeError
                 | VersionStr _ (Some _) | VersionNum _ _ => False
                 end).
Proof.
  split; [|split].
  - intros b H. unfold Bot_init in H.
    destruct (py_float _); [|discriminate H]. by injection H as <-.
  - intros [-> | (a & -> & Ha)]; [reflexivity|]. unfold Bot_init. by rewrite Ha.
  - intros e. unfold Bot_init. split.
    + intros H. destruct v as [a|]; [|discriminate H].
      destruct (version_truthy a) eqn:Ha; [|discriminate H].
      exists a. split; [reflexivity|]. split; [exact Ha|]. clear Ha.
      destruct a as [text [x|]|text x|text|text t]; simpl in H;
        try discriminate H; by injection H as <-.
    + intros (a & -> & Ha & He). rewrite Ha.
      destruct a as [text [x|]|text x|text|text t]; try done; by subst e.
Qed.

Lemma Bot_init_outcome_witness :
  Bot_init "TOKEN" (Some (VersionNum "0" (FFin 0))) None None
  = Ok (MkBot "16.0" (FFin (16 # 1)) None "me" "https://graph.facebook.com/v16.0"
              "TOKEN" None)
  /\ (graph_url bot13 = "https://graph.facebook.com/v" +:+ api_version bot13
      /\ access_token bot13 = "TOKEN"%string /\ app_secret bot13 = None
      /\ page_id bot13 = "1055"%string /\ _auth_args bot13 = None)
  /\ Bot_init "TOKEN" (Some (VersionStr "latest" None)) None None = Raise ValueError
  /\ Bot_init "TOKEN" (Some (VersionHuge "1e400")) None None = Raise OverflowError
  /\ Bot_init "TOKEN" (Some (VersionOther "[13]" true)) None None = Raise TypeError
  /\ exists a,
       Some (VersionOther "[13]" true) = Some a /\ version_truthy a = true
       /\ match a with
          | VersionStr _ None => TypeError = ValueError
          | VersionHuge _ => TypeError = OverflowError
          | VersionOther _ _ => TypeError = TypeError
          | VersionStr _ (Some _) | VersionNum _ _ => False
          end.
Proof.
  split; [|split; [|split; [|split; [|split]]]].
  - exact (proj1 (proj2 (Bot_init_outcome "TOKEN" (Some (VersionNum "0" (FFin 0)))
                           None None))
             (or_intror (ex_intro _ (VersionNum "0" (FFin 0)) (conj eq_refl eq_refl)))).
  - exact (proj1 (Bot_init_outcome "TOKEN" (Some (VersionNum "13.0" (FFin (13 # 1))))
                    None (Some "1055"%string)) bot13 eq_refl).
  - exact (proj2 (proj2 (proj2 (Bot_init_outcome "TOKEN"
                                  (Some (VersionStr "latest" None)) None None))
                    ValueError)
             (ex_intro _ (VersionStr "latest" None)
                (conj eq_refl (conj eq_refl eq_refl)))).
  - exact (proj2 (proj2 (proj2 (Bot_init_outcome "TOKEN"
                                  (Some (VersionHuge "1e400")) None None))
                    OverflowError)
             (ex_intro _ (VersionHuge "1e400")
                (conj eq_refl (conj eq_refl eq_refl)))).
  - exact (proj2 (proj2 (proj2 (Bot_init_outcome "TOKEN"
                                  (Some (VersionOther "[13]" true)) None None))
                    TypeError)
             (ex_intro _ (VersionOther "[13]" true)
                (conj eq_refl (conj eq_refl eq_refl)))).
  - exact (proj1 (proj2 (proj2 (Bot_init_outcome "TOKEN"
                                  (Some (VersionOther "[13]" true)) None None))
                    TypeError)
             eq_refl).
Defined.

Lemma perform_trace_grows c s :
  trace (snd (perform c s)) = effects_of c s ++ trace s.
Proof. unfold effects_of. by_cases c; reflexivity. Qed.

Lemma perform_world c s :
  fs (snd (perform c s)) = fs s /\ net (snd (perform c s)) = net s.
Proof. by_cases c; done. Qed.

Lemma perform_config c s : same_config (self s) (self (snd (perform c s))).
Proof. destruct (perform_self c s) as [-> | ->]; by repeat split. Qed.

Lemma effects_carry_token c s rq :
  cache_coherent (self s) ->
  EvHttp rq ∈ effects_of c s ->
  rq_params rq !! "access_token"%string = Some (VStr (access_token (self s))).
Proof.
  intros Hc. rewrite <- fresh_auth_token, <- (current_auth_coherent _ Hc). clear Hc.
  unfold effects_of. by_cases c; intros H; the_request H;
    cbn [rq_params]; unfold modern_params;
    rewrite ?auth_params_kept; try done.
  all: by eapply user_info_fields_other.
Qed.

Lemma perform_all_invariant cs :
  forall s, cache_coherent (self s) ->
    exists evs,
      trace (perform_all cs s) = evs ++ trace s
      /\ (forall rq, EvHttp rq ∈ evs ->
            rq_params rq !! "access_token"%string
            = Some (VStr (access_token (self s))))
      /\ cache_coherent (self (perform_all cs s))
      /\ same_config (self s) (self (perform_all cs s))
      /\ fs (perform_all cs s) = fs s
      /\ net (perform_all cs s) = net s.
Proof.
  induction cs as [|c cs IH]; intros s Hc.
  - exists []. repeat split; try done. intros rq H. by apply elem_of_nil in H.
  - simpl.
    destruct (IH (snd (perform c s)) (perform_coherent c s Hc))
      as (evs & Ht & Hrq & Hc' & Hcfg & Hfs & Hnet).
    destruct (perform_config c s) as (C1 & C2 & C3 & C4 & C5 & C6).
    destruct Hcfg as (D1 & D2 & D3 & D4 & D5 & D6).
    destruct (perform_world c s) as [W1 W2].
    exists (evs ++ effects_of c s). repeat split; try congruence.
    + by rewrite Ht, perform_trace_grows, app_assoc.
    + intros rq [H | H]%elem_of_app.
      * rewrite <- C6. by apply Hrq.
      * by apply (effects_carry_token c s).
Qed.

(** X16: A whole session on a bot made by the constructor, whatever operations
    it runs and whatever they return or raise: the bot keeps the token and
    secret it was built with and a [graph_url] made of its version, its
    cache stays what [auth_args] computes, the file system and the transport
    are left alone, and every request sent carries the constructor's token. *)
Theorem session_keeps_its_credentials tok v sec pg b cs s :
  Bot_init tok v sec pg = Ok b ->
  self s = b ->
  let s' := perform_all cs s in
  cache_coherent (self s')
  /\ graph_url (self s') = "https://graph.facebook.com/v" +:+ api_version (self s')
  /\ access_token (self s') = tok
  /\ app_secret (self s') = sec
  /\ fs s' = fs s
  /\ net s' = net s
  /\ (forall rq, EvHttp rq ∈ new_events (trace s) (trace s') ->
        rq_params rq !! "access_token"%string = Some (VStr tok)).
Proof.
  intros Hb Hs s'. subst s'.
  assert (Hc : cache_coherent (self s))
    by (rewrite Hs; by eapply Bot_init_coherent).
  assert (Hinit : graph_url b = "https://graph.facebook.com/v" +:+ api_version b
                  /\ access_token b = tok /\ app_secret b = sec).
  { unfold Bot_init in Hb.
    repeat match type of Hb with
           | context [match ?x with _ => _ end] => destruct x
           end; inversion Hb; done. }
  destruct Hinit as (I1 & I2 & I3).
  destruct (perform_all_invariant cs s Hc)
    as (evs & Ht & Hrq & Hc' & (D1 & D2 & D3 & D4 & D5 & D6) & Hfs & Hnet).
  rewrite Hs in *. repeat split; try congruence.
  intros rq H. rewrite Ht, new_events_app in H. rewrite <- I2. by apply Hrq.
Qed.

Lemma session_keeps_its_credentials_witness :
  let s' := perform_all [SendTextMessage (VStr "2468") (VStr "hi") regular;
                         GetUserInfo "2468" VNone;
                         SendImage (VStr "2468") "img/cat.png" regular true]
              (world bot16) in
  cache_coherent (self s')
  /\ graph_url (self s') = "https://graph.facebook.com/v" +:+ api_version (self s')
  /\ access_token (self s') = "TOKEN"%string
  /\ app_secret (self s') = Some "SECRET"%string
  /\ fs s' = fs (world bot16)
  /\ net s' = net (world bot16)
  /\ (forall rq, EvHttp rq ∈ new_events (trace (world bot16)) (trace s') ->
        rq_params rq !! "access_token"%string = Some (VStr "TOKEN")).
Proof.
  exact (session_keeps_its_credentials "TOKEN" None (Some "SECRET"%string)
           (Some "1055"%string) bot16 _ (world bot16) eq_refl eq_refl).
Defined.

(** *** The two send shapes side by side *)

Lemma modern_params_lookup b recipient message k :
  k <> "access_token"%string -> k <> "appsecret_proof"%string ->
  modern_params (fresh_auth_args b) recipient message !! k
  = ({[ "recipient"%string := recipient;
        "messaging_type"%string := VStr "RESPONSE";
        "message"%string := message ]} : gmap string value) !! k.
Proof.
  intros H1 H2. unfold modern_params.
  by rewrite lookup_union_r by (by apply fresh_auth_other).
Qed.

(** X17: From version 14.0 on, the operations that end in [send_message] drop
    the notification type: the request has no body and no query parameter
    other than [recipient], [messaging_type], [message] and the
    authentication, whatever notification type the caller asked for. *)
Theorem modern_path_drops_notification_type c s d :
  cache_coherent (self s) ->
  float_ge (_num_api_version (self s)) (FFin (14 # 1)) = true ->
  send_message_recipient c = Some (VDict d) ->
  exists rq,
    effects_of c s = [EvHttp rq]
    /\ rq_body rq = NoBody
    /\ rq_params rq !! "notification_type"%string = None
    /\ (forall k, is_Some (rq_params rq !! k) ->
          k ∈ ["recipient"; "messaging_type"; "message"; "access_token";
               "appsecret_proof"]%string).
Proof.
  intros Hc V Hr. unfold effects_of.
  destruct c; try discriminate Hr; injection Hr as ->; to_primitives;
    rewrite V, answer_state; cbn [trace log set_self snd];
    rewrite new_events_1, (current_auth_coherent _ Hc);
    (eexists; split; [reflexivity|]; split; [reflexivity|]; cbn [rq_params]).
  all: split; [by rewrite modern_params_lookup|].
  all: intros k Hk.
  all: destruct (decide (k = "access_token"%string)) as [->|H1]; [repeat constructor|].
  all: destruct (decide (k = "appsecret_proof"%string)) as [->|H2]; [repeat constructor|].
  all: rewrite modern_params_lookup in Hk by done.
  all: destruct (decide (k = "recipient"%string)) as [->|H3]; [repeat constructor|].
  all: destruct (decide (k = "messaging_type"%string)) as [->|H4]; [repeat constructor|].
  all: destruct (decide (k = "message"%string)) as [->|H5]; [repeat constructor|].
  all: rewrite !lookup_insert_ne, lookup_singleton_ne in Hk by done.
  all: by destruct Hk.
Qed.

Lemma modern_path_drops_notification_type_witness :
  exists rq,
    effects_of (SendTextMessage (VDict {[ "id"%string := VStr "2468" ]}) (VStr "hi") no_push)
      (world bot16) = [EvHttp rq]
    /\ rq_body rq = NoBody
    /\ rq_params rq !! "notification_type"%string = None
    /\ (forall k, is_Some (rq_params rq !! k) ->
          k ∈ ["recipient"; "messaging_type"; "message"; "access_token";
               "appsecret_proof"]%string).
Proof.
  exact (modern_path_drops_notification_type
           (SendTextMessage (VDict {[ "id"%string := VStr "2468" ]}) (VStr "hi") no_push)
           (world bot16) _ I eq_refl eq_refl).
Defined.

(** X18: The message itself does not depend on the API version: for an operation
    that ends in [send_message], the [message] entry of the JSON body sent
    below 14.0 is the [message] parameter sent from 14.0 on.  The recipient
    does: a recipient given as a dictionary is sent below 14.0 as that whole
    dictionary under [recipient.id], and from 14.0 on as its [id] entry. *)
Theorem message_is_the_same_on_both_paths c d s_old s_new :
  send_message_recipient c = Some (VDict d) ->
  float_ge (_num_api_version (self s_old)) (FFin (14 # 1)) = false ->
  float_ge (_num_api_version (self s_new)) (FFin (14 # 1)) = true ->
  cache_coherent (self s_new) ->
  exists rq_old rq_new body message,
    effects_of c s_old = [EvHttp rq_old]
    /\ effects_of c s_new = [EvHttp rq_new]
    /\ rq_body rq_old = JsonBody (VDict body)
    /\ body !! "message"%string = Some message
    /\ rq_params rq_new !! "message"%string = Some message
    /\ body !! "recipient"%string = Some (VDict {[ "id"%string := VDict d ]})
    /\ rq_params rq_new !! "recipient"%string
       = Some (default VNone (d !! "id"%string)).
Proof.
  intros Hr Vo Vn Hc. unfold effects_of.
  destruct c; try discriminate Hr; injection Hr as ->; to_primitives;
    rewrite Vo, Vn; cbn zeta; rewrite !answer_state;
    cbn [trace log set_self set_heap snd];
    rewrite !new_events_1, (current_auth_coherent _ Hc);
    (eexists _, _, _, _; split; [reflexivity|]; split; [reflexivity|];
     split; [reflexivity|]; cbn [rq_params]; unfold wrapped;
     rewrite !modern_params_lookup by done; repeat split; reflexivity).
Qed.

Lemma message_is_the_same_on_both_paths_witness :
  exists rq_old rq_new body message,
    effects_of (SendFileUrl (VDict {[ "id"%string := VStr "2468" ]})
                  "https://example.org/a.pdf" regular) (world bot13) = [EvHttp rq_old]
    /\ effects_of (SendFileUrl (VDict {[ "id"%string := VStr "2468" ]})
                     "https://example.org/a.pdf" regular) (world bot16) = [EvHttp rq_new]
    /\ rq_body rq_old = JsonBody (VDict body)
    /\ body !! "message"%string = Some message
    /\ rq_params rq_new !! "message"%string = Some message
    /\ body !! "recipient"%string
       = Some (VDict {[ "id"%string := VDict {[ "id"%string := VStr "2468" ]} ]})
    /\ rq_params rq_new !! "recipient"%string = Some (VStr "2468").
Proof.
  exact (message_is_the_same_on_both_paths
           (SendFileUrl (VDict {[ "id"%string := VStr "2468" ]})
              "https://example.org/a.pdf" regular)
           _ (world bot13) (world bot16) eq_refl eq_refl eq_refl I).
Defined.
